(** * The in-container process daemon of garden-docker

    A shallow embedding of
    [garden-linux/container_daemon/daemon.go]: the [ContainerDaemon]
    with its [Init], [Run], [Handle] and [Stop] methods, the completion
    goroutine [reportExitStatus] and its helper [tryToReportErrorf].

    The Go code is effectful: it creates pipes, starts a process, spawns
    a goroutine, writes to and closes files.  These effects are threaded
    through an explicit [World] by a small state monad; every effect is
    also appended to a log, so that statements about order ("the last
    write before the close") and about multiplicity ("closed exactly
    once") can be read off the log. *)

From stdpp Require Import gmap strings list.
From Stdlib Require Import Strings.Ascii Strings.Byte NArith.

(** ** Data *)

(** An [*os.File].  Files are numbered in the order in which they are
    created; the number stands for the descriptor. *)
Definition File := nat.

(** The anonymous struct [{ r *os.File; w *os.File }] of [Handle]. *)
Record Pipe := mkPipe { r : File; w : File }.

(** The value of a slot of the [pipes] array before the loop has
    assigned it; [Handle] reads no slot before that. *)
#[global] Instance Pipe_inhabited : Inhabited Pipe := populate (mkPipe 0 0).

(** The fields of [garden.ProcessSpec] that [Handle] reads. *)
Record ProcessSpec := mkSpec {
  Path : string;
  Args : list string;
  User : string
}.

(** The fields of [os/user.User] that [Handle] reads. *)
Record user_User := mkUser { Uid : string; Gid : string }.

(** [exec.Cmd] with the [syscall.Credential] of its [SysProcAttr].
    [lookPathErr] is the error [exec.Command] keeps for [Start] when it
    could not resolve the name. *)
Record Cmd := mkCmd {
  cmd_Path : string;
  cmd_Args : list string;
  lookPathErr : option string;
  Credential_Uid : N;
  Credential_Gid : N;
  Stdin : option File;
  Stdout : option File;
  Stderr : option File
}.

(** The goroutine started by [go reportExitStatus(...)].  The [tidyUp]
    closure is represented by what it captures, the [pipes] array.  The
    runner is the daemon's and is supplied when the goroutine is run. *)
Record Goroutine := mkGo {
  go_cmd : Cmd;
  go_exitWriter : File;
  go_errWriter : File;
  go_pipes : list Pipe
}.

(** A Go [error] is represented by its message; [None] is [nil]. *)
Definition error := option string.

Inductive event :=
| EPipe (p : Pipe)
| EPipeFailed (err : string)
| ELookup (name : string)
| EStart (c : Cmd) (err : error)
| EGo (g : Goroutine)
| EWait (c : Cmd)
| EWrite (f : File) (data : list byte) (err : error)
| EClose (f : File) (err : error)
| EListenerInit
| EListenerStop.

(** The part of the process state the daemon acts on. *)
Record World := mkWorld {
  open : gset File;
  next_fd : File;
  goroutines : list Goroutine;
  log : list event
}.

(** ** The state monad *)

Definition M (A : Type) : Type := World -> A * World.

Definition ret {A} (a : A) : M A := fun σ => (a, σ).

Definition bind {A B} (m : M A) (k : A -> M B) : M B :=
  fun σ => let (a, σ') := m σ in k a σ'.

Notation "x <- m ;; k" := (bind m (fun x => k))
  (at level 100, m at next level, right associativity).
Notation "m ;; k" := (bind m (fun _ => k))
  (at level 100, right associativity).

(** Appending an event to the log. *)
Definition push (e : event) (σ : World) : World :=
  mkWorld (open σ) (next_fd σ) (goroutines σ) (log σ ++ [e]).

(** Reading the world without changing it. *)
Definition reads {A} (f : World -> A) : M A := fun σ => (f σ, σ).

Definition exec {A} (m : M A) (σ : World) : World := (m σ).2.
Definition eval {A} (m : M A) (σ : World) : A := (m σ).1.

(** ** Collaborators

    The daemon only sees interfaces.  What an implementation answers may
    depend on everything that happened before, so each method is a
    function of the current world. *)

(** What lies below the daemon: the system, and the two functions of
    the Go library whose results the source does not determine. *)
Record OS := mkOS {
  (** whether the next [os.Pipe()] fails, and with which error *)
  Pipe_err : World -> error;
  (** whether a write to an open file fails *)
  Write_err : File -> list byte -> World -> error;
  (** [exec.LookPath(name)]: the file found for the name, or an error *)
  LookPath : string -> World -> string + string;
  (** [fmt.Sscanf(s, "%d", &v)] for a [uint32] [v]: the number it
      stores in [v], or [None] when it returns an error and stores
      nothing *)
  Sscanf_uint32 : string -> option N
}.

Record Runner := mkRunner {
  Runner_Start : Cmd -> World -> error;
  Runner_Wait : Cmd -> World -> byte * error
}.

(** [system.User]: [Lookup] returns a [*user.User], possibly [nil], and
    an error. *)
Record system_User := mkUsers {
  Lookup : string -> World -> option user_User * error
}.

(** A [*json.Decoder] on which [Decode(&spec)] is called once. *)
Record Decoder := mkDecoder { Decode : string + ProcessSpec }.

(** The methods of a listener are code of their own: they may act on
    the world, as a listener that opens a socket and closes it does. *)
Record Listener := mkListener {
  Listener_Init : M error;
  Listener_Listen : (Decoder -> M (list File * error)) -> M error;
  Listener_Stop : M error
}.

Record ContainerDaemon := mkDaemon {
  cd_Listener : Listener;
  Users : system_User;
  cd_Runner : Runner
}.

(** ** A scanner for the runs

    A scanner in the manner of [fmt.Sscanf(s, "%d", &v)] for a [uint32],
    on a string of UTF-8 bytes.  White space before the number is
    skipped: the characters 9 and 11 to 13, the blank, U+0085, U+00A0,
    U+1680, U+2000 to U+200A, U+2028, U+2029, U+202F, U+205F and U+3000;
    a newline there is an error.  Then a non-empty run of decimal digits
    is read; the scan fails when there is no digit or when the number
    does not fit in 32 bits.  Input after the digits is left unread. *)

Definition is_digit (c : ascii) : bool :=
  (48 <=? nat_of_ascii c)%nat && (nat_of_ascii c <=? 57)%nat.

(** The white space of one byte, the newline apart. *)
Definition is_space1 (c : ascii) : bool :=
  let n := nat_of_ascii c in
  (n =? 9)%nat || (n =? 11)%nat || (n =? 12)%nat || (n =? 13)%nat
  || (n =? 32)%nat.

(** The white space of two bytes: U+0085 and U+00A0. *)
Definition is_space2 (c1 c2 : ascii) : bool :=
  (nat_of_ascii c1 =? 194)%nat
  && ((nat_of_ascii c2 =? 133)%nat || (nat_of_ascii c2 =? 160)%nat).

(** The white space of three bytes. *)
Definition is_space3 (c1 c2 c3 : ascii) : bool :=
  let n1 := nat_of_ascii c1 in
  let n2 := nat_of_ascii c2 in
  let n3 := nat_of_ascii c3 in
  ((n1 =? 225)%nat && (n2 =? 154)%nat && (n3 =? 128)%nat)
  || ((n1 =? 226)%nat && (n2 =? 128)%nat
      && (((128 <=? n3)%nat && (n3 <=? 138)%nat)
          || (n3 =? 168)%nat || (n3 =? 169)%nat || (n3 =? 175)%nat))
  || ((n1 =? 226)%nat && (n2 =? 129)%nat && (n3 =? 159)%nat)
  || ((n1 =? 227)%nat && (n2 =? 128)%nat && (n3 =? 128)%nat).

(** Skipping the white space; [None] is the error for a newline. *)
Fixpoint skip_space (s : string) : option string :=
  match s with
  | EmptyString => Some s
  | String c1 s1 =>
      if (nat_of_ascii c1 =? 10)%nat then None
      else if is_space1 c1 then skip_space s1
      else
        match s1 with
        | String c2 s2 =>
            if is_space2 c1 c2 then skip_space s2
            else
              match s2 with
              | String c3 s3 =>
                  if is_space3 c1 c2 c3 then skip_space s3 else Some s
              | EmptyString => Some s
              end
        | EmptyString => Some s
        end
  end.

Fixpoint scan_digits (s : string) (acc : option N) : option N :=
  match s with
  | String c s' =>
      if is_digit c
      then scan_digits s'
             (Some (10 * default 0%N acc + N.of_nat (nat_of_ascii c - 48))%N)
      else acc
  | EmptyString => acc
  end.

Definition scan_uint32 (s : string) : option N :=
  match skip_space s with
  | Some rest =>
      match scan_digits rest None with
      | Some n => if (n <? 2 ^ 32)%N then Some n else None
      | None => None
      end
  | None => None
  end.

(** ** Functions of the Go library *)

(** [filepath.Base] on a system whose separator is the slash: the last
    element of the path, trailing slashes removed; ["."] for the empty
    path and ["/"] for a path of slashes only. *)
Definition is_slash (c : ascii) : bool := (nat_of_ascii c =? 47)%nat.

Fixpoint strip_slashes (l : list ascii) : list ascii :=
  match l with
  | c :: l' => if is_slash c then strip_slashes l' else l
  | [] => []
  end.

Fixpoint upto_slash (l : list ascii) : list ascii :=
  match l with
  | c :: l' => if is_slash c then [] else c :: upto_slash l'
  | [] => []
  end.

Definition filepath_Base (path : string) : string :=
  match path with
  | EmptyString => "."
  | _ =>
      let stripped := strip_slashes (rev (String.list_ascii_of_string path)) in
      match rev (upto_slash stripped) with
      | [] => "/"
      | last => String.string_of_list_ascii last
      end
  end.

(** [fmt.Sprintf] with a format made of literal text followed by one
    [%s], and the [%s] rendering of a slice: its elements between
    brackets, separated by blanks. *)
Definition Sprintf_s (text operand : string) : string := text +:+ operand.

Definition fmt_slice (l : list string) : string :=
  "[" +:+ String.concat " " l +:+ "]".

(** ** The daemon *)

Section Daemon.

Variable os : OS.
Variable UnknownExitStatus : byte.

(** *** Calls into the library *)

(** [fmt.Sscanf(s, "%d", &v)] as the daemon calls it: the returned
    count and error are dropped, and [v] is assigned only when the scan
    succeeds. *)
Definition Sscanf_d (s : string) (v : N) : N :=
  default v (Sscanf_uint32 os s).

(** [exec.Command(name, arg...)]: the argument vector starts with the
    name.  A name that is its own [filepath.Base], one without a
    directory, is looked up: when it is found the path is the file
    found, otherwise the error is kept for [Start].  The credential and
    the standard streams are set by the caller afterwards. *)
Definition exec_Command (name : string) (arg : list string) (σ : World)
  : Cmd :=
  if String.eqb (filepath_Base name) name then
    match LookPath os name σ with
    | inl err => mkCmd name (name :: arg) (Some err) 0 0 None None None
    | inr lp => mkCmd lp (name :: arg) None 0 0 None None None
    end
  else mkCmd name (name :: arg) None 0 0 None None None.

(** *** Files *)

(** [os.Pipe()]: two fresh descriptors, or an error. *)
Definition os_Pipe : M (string + Pipe) := fun σ =>
  match Pipe_err os σ with
  | Some err =>
      (inl err, push (EPipeFailed err) σ)
  | None =>
      let p := mkPipe (next_fd σ) (S (next_fd σ)) in
      (inr p,
       mkWorld ({[r p; w p]} ∪ open σ) (S (S (next_fd σ))) (goroutines σ)
               (log σ ++ [EPipe p]))
  end.

Definition ErrClosed : string := "file already closed".

(** The method [Close] of [os.File]. *)
Definition File_Close (f : File) : M error := fun σ =>
  let err := if decide (f ∈ open σ) then None else Some ErrClosed in
  (err,
   mkWorld (open σ ∖ {[f]}) (next_fd σ) (goroutines σ)
           (log σ ++ [EClose f err])).

(** The method [Write] of [os.File]. *)
Definition File_Write (f : File) (data : list byte) : M error := fun σ =>
  let err := if decide (f ∈ open σ) then Write_err os f data σ
             else Some ErrClosed in
  (err, push (EWrite f data err) σ).

(** The [go] statement. *)
Definition spawn (g : Goroutine) : M unit := fun σ =>
  (tt, mkWorld (open σ) (next_fd σ) (goroutines σ ++ [g]) (log σ ++ [EGo g])).

(** [for i := from; i < from + n; i++ { body i }] *)
Fixpoint for_range (n from : nat) (body : nat -> M unit) : M unit :=
  match n with
  | 0 => ret tt
  | S n' => body from ;; for_range n' (S from) body
  end.

(** *** Calls through the interfaces *)

Definition call_Start (ru : Runner) (cmd : Cmd) : M error := fun σ =>
  let err := Runner_Start ru cmd σ in
  (err, push (EStart cmd err) σ).

Definition call_Wait (ru : Runner) (cmd : Cmd) : M (byte * error) := fun σ =>
  (Runner_Wait ru cmd σ, push (EWait cmd) σ).

Definition call_Lookup (us : system_User) (name : string)
  : M (option user_User * error) := fun σ =>
  (Lookup us name σ, push (ELookup name) σ).

Definition call_Listener_Init (l : Listener) : M error := fun σ =>
  let (err, σ') := Listener_Init l σ in (err, push EListenerInit σ').

Definition call_Listener_Stop (l : Listener) : M error := fun σ =>
  let (err, σ') := Listener_Stop l σ in (err, push EListenerStop σ').

(** *** [tryToReportErrorf] and [reportExitStatus] *)

(** The variadic [inserts] is handed to [Sprintf] as one operand, a
    slice.  The result of the write is dropped. *)
Definition tryToReportErrorf (errWriter : File) (format : string)
    (inserts : list string) : M unit :=
  let message := Sprintf_s format (fmt_slice inserts) in
  File_Write errWriter (String.list_byte_of_string message) ;; ret tt.

(** [defer tidyUp()] runs when the function returns, whatever happened
    before. *)
Definition reportExitStatus (runner : Runner) (cmd : Cmd)
    (exitWriter errWriter : File) (tidyUp : M unit) : M unit :=
  res <- call_Wait runner cmd ;;
  exitStatus <-
    match res.2 with
    | Some err =>
        tryToReportErrorf errWriter "container_daemon: Wait failed: " [err] ;;
        ret UnknownExitStatus
    | None => ret res.1
    end ;;
  err <- File_Write exitWriter [exitStatus] ;;
  match err with
  | Some err =>
      tryToReportErrorf errWriter
        "container_daemon: failed to Write exit status: " [err]
  | None => ret tt
  end ;;
  tidyUp.

(** The closure passed by [Handle] as [tidyUp]. *)
Definition tidyUp (pipes : list Pipe) : M unit :=
  File_Close (r (pipes !!! 0)) ;;
  for_range 3 1 (fun i => File_Close (w (pipes !!! i)) ;; ret tt).

(** *** [Handle] *)

(** The loop creating the four pipes; it stops at the first failure.
    The array starts zeroed and slot [i] is assigned in round [i]. *)
Fixpoint create_pipes (n i : nat) (pipes : list Pipe)
  : M (string + list Pipe) :=
  match n with
  | 0 => ret (inr pipes)
  | S n' =>
      res <- os_Pipe ;;
      match res with
      | inl err => ret (inl err)
      | inr p => create_pipes n' (S i) (<[i := p]> pipes)
      end
  end.

Variable cd : ContainerDaemon.

Definition Handle (decoder : Decoder) : M (list File * error) :=
  match Decode decoder with
  | inl err => ret ([], Some ("container_daemon: Decode failed: " +:+ err))
  | inr spec =>
      res <- create_pipes 4 0 (replicate 4 inhabitant) ;;
      match res with
      | inl err =>
          ret ([], Some ("container_daemon: Failed to create pipe: " +:+ err))
      | inr pipes =>
          found <- call_Lookup (Users cd) (User spec) ;;
          match found with
          | (Some user, None) =>
              let uid := Sscanf_d (Uid user) 0 in
              let gid := Sscanf_d (Gid user) 0 in
              cmd <- reads (exec_Command (Path spec) (Args spec)) ;;
              let cmd :=
                mkCmd (cmd_Path cmd) (cmd_Args cmd) (lookPathErr cmd) uid gid
                      (Some (r (pipes !!! 0)))
                      (Some (w (pipes !!! 1)))
                      (Some (w (pipes !!! 2))) in
              let stdinW := w (pipes !!! 0) in
              let stdoutR := r (pipes !!! 1) in
              let stderrR := r (pipes !!! 2) in
              let exitStatusR := r (pipes !!! 3) in
              err <- call_Start (cd_Runner cd) cmd ;;
              match err with
              | Some err =>
                  ret ([], Some ("container_daemon: running command: " +:+ err))
              | None =>
                  spawn (mkGo cmd (w (pipes !!! 3)) (w (pipes !!! 2)) pipes) ;;
                  ret ([stdinW; stdoutR; stderrR; exitStatusR], None)
              end
          | (None, None) =>
              ret ([], Some ("container_daemon: failed to lookup user "
                             +:+ User spec))
          | (_, Some err) =>
              ret ([], Some ("container_daemon: lookup user " +:+ User spec
                             +:+ ": " +:+ err))
          end
      end
  end.

(** Running a goroutine that [Handle] has started. *)
Definition run_goroutine (g : Goroutine) : M unit :=
  reportExitStatus (cd_Runner cd) (go_cmd g) (go_exitWriter g)
    (go_errWriter g) (tidyUp (go_pipes g)).

(** The scheduler picks the oldest pending goroutine and runs it to its
    end. *)
Definition schedule : M unit := fun σ =>
  match goroutines σ with
  | [] => (tt, σ)
  | g :: rest =>
      run_goroutine g (mkWorld (open σ) (next_fd σ) rest (log σ))
  end.

(** *** [Init], [Run], [Stop] *)

Definition Init : M error :=
  err <- call_Listener_Init (cd_Listener cd) ;;
  match err with
  | Some err =>
      ret (Some ("container_daemon: initializing the listener: " +:+ err))
  | None => ret None
  end.

Definition Run : M error :=
  err <- Listener_Listen (cd_Listener cd) Handle ;;
  match err with
  | Some err =>
      ret (Some ("container_daemon: listening for connections: " +:+ err))
  | None => ret None
  end.

Definition Stop : M error :=
  err <- call_Listener_Stop (cd_Listener cd) ;;
  match err with
  | Some err =>
      ret (Some ("container_daemon: stopping the listener: " +:+ err))
  | None => ret None
  end.

End Daemon.

(** ** Reading the log *)

(** The descriptors [os.Pipe] hands out in [n] successive calls, the
    first of them numbered [fd]. *)
Fixpoint fresh_pipes (n : nat) (fd : File) : list Pipe :=
  match n with
  | 0 => []
  | S n' => mkPipe fd (S fd) :: fresh_pipes n' (S (S fd))
  end.

Definition pipe_ends (ps : list Pipe) : list File :=
  flat_map (fun p => [r p; w p]) ps.

Definition pipe_fds (ps : list Pipe) : gset File := list_to_set (pipe_ends ps).

(** Writes to and closes of one file. *)
Definition on_file (f : File) (e : event) : bool :=
  match e with
  | EWrite f' _ _ | EClose f' _ => Nat.eqb f' f
  | _ => false
  end.

Definition is_close (e : event) : bool :=
  match e with EClose _ _ => true | _ => false end.

Definition is_close_of (f : File) (e : event) : bool :=
  match e with EClose f' _ => Nat.eqb f' f | _ => false end.

Definition is_wait (e : event) : bool :=
  match e with EWait _ => true | _ => false end.

Definition is_start (e : event) : bool :=
  match e with EStart _ _ => true | _ => false end.

Definition is_go (e : event) : bool :=
  match e with EGo _ => true | _ => false end.

(** How often [f] was closed. *)
Definition closes (f : File) (evs : list event) : nat :=
  length (List.filter (is_close_of f) evs).

(** The bytes that went into the pipe through its write end [f]: the
    payloads of the writes the system accepted, in order.  This is what
    a reader of the other end gets before the end of the stream. *)
Definition written (f : File) (evs : list event) : list byte :=
  flat_map (fun e =>
    match e with
    | EWrite f' data None => if Nat.eqb f' f then data else []
    | _ => []
    end) evs.

(** The events of [σ'] that came after those of [σ]. *)
Definition since (σ σ' : World) : list event :=
  drop (length (log σ)) (log σ').

(** The world after [os.Pipe] has handed out the pipes [ps]. *)
Definition with_pipes (ps : list Pipe) (σ : World) : World :=
  mkWorld (pipe_fds ps ∪ open σ) (2 * length ps + next_fd σ) (goroutines σ)
          (log σ ++ (EPipe <$> ps)).

(** The array after the rounds [i], [i+1], ... have stored [ps]. *)
Fixpoint fill (i : nat) (ps pipes : list Pipe) : list Pipe :=
  match ps with
  | [] => pipes
  | p :: ps' => fill (S i) ps' (<[i := p]> pipes)
  end.

(** The command [Handle] builds for [spec] and the user record [u]
    when [exec.Command] runs in the world [τ], and the goroutine it
    starts for it. *)
Definition command_of (os : OS) (τ : World) (spec : ProcessSpec)
    (u : user_User) (ps : list Pipe) : Cmd :=
  let cmd := exec_Command os (Path spec) (Args spec) τ in
  mkCmd (cmd_Path cmd) (cmd_Args cmd) (lookPathErr cmd)
        (Sscanf_d os (Uid u) 0) (Sscanf_d os (Gid u) 0)
        (Some (r (ps !!! 0))) (Some (w (ps !!! 1))) (Some (w (ps !!! 2))).

(** The world in which [Handle] calls [exec.Command]: the four pipes
    exist and the lookup has been made. *)
Definition at_Command (spec : ProcessSpec) (σ : World) : World :=
  push (ELookup (User spec)) (with_pipes (fresh_pipes 4 (next_fd σ)) σ).

Definition completion_of (cmd : Cmd) (ps : list Pipe) : Goroutine :=
  mkGo cmd (w (ps !!! 3)) (w (ps !!! 2)) ps.

(** The ends handed to the caller, and the ends the daemon keeps. *)
Definition client_ends (ps : list Pipe) : list File :=
  [w (ps !!! 0); r (ps !!! 1); r (ps !!! 2); r (ps !!! 3)].

Definition server_ends (ps : list Pipe) : list File :=
  [r (ps !!! 0); w (ps !!! 1); w (ps !!! 2); w (ps !!! 3)].

(** The event a call of [tryToReportErrorf] leaves, if there was a
    [cause] to report; [res] is the result of its write. *)
Definition diagnostic (errWriter : File) (format : string) (cause : error)
    (res : error) : list event :=
  match cause with
  | Some err =>
      [EWrite errWriter
         (String.list_byte_of_string (format +:+ "[" +:+ err +:+ "]")) res]
  | None => []
  end.

(** The byte [reportExitStatus] sends for a result of [Wait]. *)
Definition reported (UnknownExitStatus : byte) (res : byte * error) : byte :=
  match res.2 with
  | Some _ => UnknownExitStatus
  | None => res.1
  end.

(** The open descriptors once [fs] have been closed. *)
Definition closed (fs : list File) (s : gset File) : gset File :=
  foldl (fun s f => s ∖ {[f]}) s fs.

(** The events [tidyUp] leaves when it closes [fs] in turn, starting
    with the descriptors [s] open: a close of a descriptor that is not
    open returns [ErrClosed]. *)
Fixpoint close_events (fs : list File) (s : gset File) : list event :=
  match fs with
  | [] => []
  | f :: fs' =>
      EClose f (if decide (f ∈ s) then None else Some ErrClosed)
      :: close_events fs' (s ∖ {[f]})
  end.

(** [n] calls of [m] in a row. *)
Fixpoint times {A} (n : nat) (m : M A) : M (list A) :=
  match n with
  | 0 => ret []
  | S n' => a <- m ;; rest <- times n' m ;; ret (a :: rest)
  end.

(** ** Concrete collaborators *)

Module Sample.

(** A system that never refuses a pipe or a write. *)
(** On the search path there is [echo] only. *)
Definition which (name : string) (σ : World) : string + string :=
  if String.eqb name "echo" then inr "/bin/echo"
  else inl "executable file not found in $PATH".

Definition os_ok : OS :=
  mkOS (fun _ => None) (fun _ _ _ => None) which scan_uint32.

(** A descriptor limit: [os.Pipe] fails once fewer than two of
    [limit] descriptors are free. *)
Definition os_limit (limit : nat) : OS :=
  mkOS (fun σ => if decide (size (open σ) + 2 <= limit) then None
                 else Some "too many open files")
       (fun _ _ _ => None) which scan_uint32.

(** Writes fail, as when the reader has gone. *)
Definition os_epipe : OS :=
  mkOS (fun _ => None) (fun _ _ _ => Some "broken pipe") which scan_uint32.

Definition passwd : system_User :=
  mkUsers (fun name _ =>
    if String.eqb name "nobody" then (Some (mkUser "65534" "65534"), None)
    else if String.eqb name "odd" then (Some (mkUser "abc" "1000"), None)
    else (None, None)).

Definition passwd_down : system_User :=
  mkUsers (fun _ _ => (None, Some "store unavailable")).

Definition runner_ok (status : byte) : Runner :=
  mkRunner (fun _ _ => None) (fun _ _ => (status, None)).

Definition runner_noexec : Runner :=
  mkRunner (fun _ _ => Some "no such file or directory")
           (fun _ _ => (x00, None)).

Definition runner_lost : Runner :=
  mkRunner (fun _ _ => None) (fun _ _ => (x00, Some "no child processes")).

Definition listener_ok : Listener :=
  mkListener (ret None) (fun _ => ret None) (ret None).

(** A listener on the socket [sock]: [Init] opens the socket, [Stop]
    closes it, and closing it again is an error. *)
Definition listener_socket (sock : File) : Listener :=
  mkListener
    (fun σ => (None, mkWorld ({[sock]} ∪ open σ)
                             (Nat.max (S sock) (next_fd σ))
                             (goroutines σ) (log σ)))
    (fun _ => ret None)
    (err <- File_Close sock ;;
     ret (match err with
          | Some _ => Some "use of closed network connection"
          | None => None
          end)).

Definition daemon (ru : Runner) : ContainerDaemon :=
  mkDaemon listener_ok passwd ru.

(** A process with its three standard descriptors open. *)
Definition world0 : World := mkWorld {[0; 1; 2]} 3 [] [].

Definition echo (user : string) : Decoder :=
  mkDecoder (inr (mkSpec "/bin/echo" ["hi"] user)).

Definition garbled : Decoder :=
  mkDecoder (inl "unexpected end of JSON input").

Definition Unknown : byte := xff.

End Sample.

(** * Proofs *)

(** ** The pipe loop *)

Section Pipes.

Variable os : OS.

Lemma World_eta σ :
  mkWorld (open σ) (next_fd σ) (goroutines σ) (log σ) = σ.
Proof. by destruct σ. Qed.

Lemma with_pipes_nil σ : with_pipes [] σ = σ.
Proof.
  unfold with_pipes, pipe_fds. cbn.
  rewrite app_nil_r, (left_id_L ∅ (∪)). apply World_eta.
Qed.

Lemma with_pipes_cons p ps σ :
  with_pipes ps (mkWorld ({[r p; w p]} ∪ open σ) (S (S (next_fd σ)))
                         (goroutines σ) (log σ ++ [EPipe p]))
  = with_pipes (p :: ps) σ.
Proof.
  unfold with_pipes, pipe_fds. cbn [open next_fd goroutines log].
  f_equal.
  - cbn [pipe_ends flat_map app list_to_set].
    apply set_eq; intros x. rewrite !elem_of_union. tauto.
  - cbn [length]. lia.
  - by rewrite <- app_assoc.
Qed.

(** When the loop runs to its end, it has stored [n] fresh pipes. *)
Lemma create_pipes_inr n : forall i pipes σ pipes' σ',
  create_pipes os n i pipes σ = (inr pipes', σ') ->
  pipes' = fill i (fresh_pipes n (next_fd σ)) pipes /\
  σ' = with_pipes (fresh_pipes n (next_fd σ)) σ.
Proof.
  induction n as [|n IH]; intros i pipes σ pipes' σ' H.
  - inversion H; subst. cbn [fresh_pipes fill]. by rewrite with_pipes_nil.
  - cbn [create_pipes] in H. unfold bind, os_Pipe in H.
    destruct (Pipe_err os σ) as [err|] eqn:E; [discriminate|].
    cbn zeta in H. apply IH in H as [-> ->].
    cbn [fresh_pipes fill next_fd]. split; [done|].
    apply (with_pipes_cons (mkPipe _ _)).
Qed.

(** When it stops early, the pipes of the earlier rounds are there. *)
Lemma create_pipes_inl n : forall i pipes σ err σ',
  create_pipes os n i pipes σ = (inl err, σ') ->
  exists k, k < n /\
    σ' = push (EPipeFailed err) (with_pipes (fresh_pipes k (next_fd σ)) σ).
Proof.
  induction n as [|n IH]; intros i pipes σ err σ' H.
  - discriminate.
  - cbn [create_pipes] in H. unfold bind, os_Pipe in H.
    destruct (Pipe_err os σ) as [e|] eqn:E.
    + inversion H; subst. exists 0. split; [lia|].
      cbn [fresh_pipes]. by rewrite with_pipes_nil.
    + cbn zeta in H. apply IH in H as (k & Hk & ->).
      exists (S k). split; [lia|].
      cbn [fresh_pipes next_fd]. f_equal.
      apply (with_pipes_cons (mkPipe _ _)).
Qed.

End Pipes.

(** ** [Handle] when it succeeds *)

Section HandleFacts.

Variable os : OS.
Variable cd : ContainerDaemon.

Lemma fill_fresh n :
  fill 0 (fresh_pipes 4 n) (replicate 4 inhabitant) = fresh_pipes 4 n.
Proof. reflexivity. Qed.

Lemma Handle_success_inv d σ fds σ1 :
  Handle os cd d σ = ((fds, None), σ1) ->
  exists spec u,
    let ps := fresh_pipes 4 (next_fd σ) in
    let cmd := command_of os (at_Command spec σ) spec u ps in
    let g := completion_of cmd ps in
    Decode d = inr spec /\
    fds = client_ends ps /\
    open σ1 = pipe_fds ps ∪ open σ /\
    goroutines σ1 = goroutines σ ++ [g] /\
    log σ1 = log σ ++ (EPipe <$> ps)
                   ++ [ELookup (User spec); EStart cmd None; EGo g].
Proof.
  unfold Handle. destruct (Decode d) as [e|spec]; [discriminate|].
  unfold bind at 1.
  destruct (create_pipes os 4 0 _ σ) as [[e|pipes] σp] eqn:Ecp;
    [discriminate|].
  apply create_pipes_inr in Ecp as [-> ->]. rewrite fill_fresh.
  set (ps := fresh_pipes 4 (next_fd σ)).
  unfold bind at 1, call_Lookup.
  destruct (Lookup _ _ _) as [[u|] [e|]]; try discriminate.
  unfold bind at 1, reads. unfold bind at 1, call_Start.
  destruct (Runner_Start _ _ _) as [e|] eqn:Es; [discriminate|].
  unfold bind, spawn, ret. intros H. inversion H; subst; clear H.
  exists spec, u. cbn [open goroutines log push with_pipes].
  repeat split; try done.
  by rewrite <- !app_assoc.
Qed.

End HandleFacts.

(** ** The completion goroutine *)

Section Completion.

Variable os : OS.
Variable UnknownExitStatus : byte.

Lemma File_Write_run f data σ :
  exists err, File_Write os f data σ = (err, push (EWrite f data err) σ) /\
    (err = None -> f ∈ open σ /\ Write_err os f data σ = None) /\
    (f ∈ open σ -> err = Write_err os f data σ).
Proof.
  unfold File_Write. eexists; split; [reflexivity|].
  destruct (decide (f ∈ open σ)); split; intros; try done.
Qed.

Lemma tryToReportErrorf_run f format err σ :
  exists res,
    tryToReportErrorf os f format [err] σ
    = (tt, mkWorld (open σ) (next_fd σ) (goroutines σ)
                   (log σ ++ diagnostic f format (Some err) res)).
Proof.
  unfold tryToReportErrorf, bind, ret.
  destruct (File_Write_run f
    (String.list_byte_of_string
       (Sprintf_s format (fmt_slice [err]))) σ) as (res & -> & _).
  exists res. reflexivity.
Qed.

Lemma tidyUp_run p0 p1 p2 p3 σ :
  let fs := server_ends [p0; p1; p2; p3] in
  tidyUp [p0; p1; p2; p3] σ
  = (tt, mkWorld (closed fs (open σ)) (next_fd σ) (goroutines σ)
                 (log σ ++ close_events fs (open σ))).
Proof.
  unfold tidyUp, for_range, bind, ret, File_Close, server_ends.
  cbn [lookup_total list_lookup_total open next_fd goroutines log
       close_events closed foldl].
  by rewrite <- !app_assoc.
Qed.

Ltac run_write exitW werr Hw :=
  match goal with
  | |- context [File_Write os exitW ?dt ?s] =>
      destruct (File_Write_run exitW dt s) as (werr & -> & _ & Hw)
  end.

Ltac run_diag errW e d :=
  match goal with
  | |- context [tryToReportErrorf os errW ?ft [e] ?s] =>
      destruct (tryToReportErrorf_run errW ft e s) as (d & ->)
  end.

Ltac run_tidy :=
  rewrite tidyUp_run;
  cbn [open next_fd goroutines log push diagnostic];
  split; [by rewrite <- !app_assoc|].

(** The run of [reportExitStatus] with the [tidyUp] of [Handle]: the
    wait, the diagnostic if the wait failed, the write of the status
    byte, the diagnostic if that write failed, and the four closes. *)
Lemma reportExitStatus_run ru cmd exitW errW p0 p1 p2 p3 σ :
  let res := Runner_Wait ru cmd σ in
  let b := reported UnknownExitStatus res in
  let fs := server_ends [p0; p1; p2; p3] in
  exists werr d1 d2,
    reportExitStatus os UnknownExitStatus ru cmd exitW errW
      (tidyUp [p0; p1; p2; p3]) σ
    = (tt, mkWorld (closed fs (open σ)) (next_fd σ) (goroutines σ)
             (log σ ++ EWait cmd
                :: diagnostic errW "container_daemon: Wait failed: " res.2 d1
                ++ EWrite exitW [b] werr
                :: diagnostic errW
                     "container_daemon: failed to Write exit status: " werr d2
                ++ close_events fs (open σ))) /\
    (exitW ∈ open σ -> (forall s, Write_err os exitW [b] s = None) ->
     werr = None).
Proof.
  intros res b fs. unfold reportExitStatus, b, reported, res, fs.
  unfold bind at 1, call_Wait.
  destruct (Runner_Wait ru cmd σ) as [st [e|]]; cbn [fst snd].
  - unfold bind at 1. unfold bind at 1.
    run_diag errW e d1. unfold ret at 1. unfold bind at 1.
    run_write exitW werr Hw. exists werr, d1.
    destruct werr as [e2|]; unfold bind at 1.
    + run_diag errW e2 d2. exists d2. run_tidy.
      intros Ho Hok. rewrite Hw by exact Ho. apply Hok.
    + unfold ret at 1. exists None. run_tidy. done.
  - unfold bind at 1. unfold ret at 1. unfold bind at 1.
    run_write exitW werr Hw. exists werr, None.
    destruct werr as [e2|]; unfold bind at 1.
    + run_diag errW e2 d2. exists d2. run_tidy.
      intros Ho Hok. rewrite Hw by exact Ho. apply Hok.
    + unfold ret at 1. exists None. run_tidy. done.
Qed.

End Completion.

(** ** Facts about logs *)

Lemma since_app σ σ' evs : log σ' = log σ ++ evs -> since σ σ' = evs.
Proof. intros E. unfold since. rewrite E. apply drop_app_length. Qed.

Lemma elem_of_closed f fs : forall s, f ∈ closed fs s <-> f ∈ s /\ f ∉ fs.
Proof.
  induction fs as [|x fs IH]; intros s; cbn [closed foldl].
  - rewrite elem_of_nil. tauto.
  - fold (closed fs (s ∖ {[x]})). rewrite IH, elem_of_difference,
      elem_of_singleton, elem_of_cons. tauto.
Qed.

Lemma closes_cons f e l :
  closes f (e :: l) = (if is_close_of f e then 1 else 0) + closes f l.
Proof. unfold closes. cbn [List.filter]. by destruct (is_close_of f e). Qed.

Lemma closes_app f l l' : closes f (l ++ l') = closes f l + closes f l'.
Proof. unfold closes. by rewrite List.filter_app, length_app. Qed.

Lemma closes_diagnostic f errW format cause res :
  closes f (diagnostic errW format cause res) = 0.
Proof. by destruct cause. Qed.

Lemma closes_pipes f ps : closes f (EPipe <$> ps) = 0.
Proof.
  induction ps as [|p ps IH]; [done|]. by rewrite fmap_cons, closes_cons.
Qed.

(** A descriptor that is not in the list is not closed; one that occurs
    once in it is closed once, and with success if it was open. *)
Lemma closes_close_events_notin f fs : forall s,
  f ∉ fs -> closes f (close_events fs s) = 0.
Proof.
  induction fs as [|x fs IH]; intros s Hf; [done|].
  apply not_elem_of_cons in Hf as [Hx Hf].
  cbn [close_events]. rewrite closes_cons, IH by done.
  cbn [is_close_of]. by rewrite (proj2 (Nat.eqb_neq x f)) by congruence.
Qed.

Lemma closes_close_events f fs : forall s,
  NoDup fs -> f ∈ fs -> closes f (close_events fs s) = 1.
Proof.
  induction fs as [|x fs IH]; intros s Hnd Hf.
  - by apply elem_of_nil in Hf.
  - apply NoDup_cons in Hnd as [Hx Hnd]. cbn [close_events].
    rewrite closes_cons. cbn [is_close_of].
    apply elem_of_cons in Hf as [->|Hf].
    + by rewrite Nat.eqb_refl, closes_close_events_notin.
    + rewrite IH by done.
      rewrite (proj2 (Nat.eqb_neq x f)); [done|]. by intros ->.
Qed.

Lemma close_events_released f fs : forall s,
  NoDup fs -> f ∈ fs -> f ∈ s -> EClose f None ∈ close_events fs s.
Proof.
  induction fs as [|x fs IH]; intros s Hnd Hf Hs.
  - by apply elem_of_nil in Hf.
  - apply NoDup_cons in Hnd as [Hx Hnd]. cbn [close_events].
    apply elem_of_cons in Hf as [->|Hf].
    + rewrite decide_True by done. apply elem_of_cons. by left.
    + apply elem_of_cons. right. apply IH; [done..|].
      apply elem_of_difference. split; [done|].
      rewrite elem_of_singleton. by intros ->.
Qed.

Lemma written_step f e l :
  written f (e :: l)
  = match e with
    | EWrite f' data None => if Nat.eqb f' f then data else []
    | _ => []
    end ++ written f l.
Proof. reflexivity. Qed.

Lemma written_app f l l' : written f (l ++ l') = written f l ++ written f l'.
Proof. unfold written. apply flat_map_app. Qed.

Lemma written_closes f fs : forall s, written f (close_events fs s) = [].
Proof. induction fs as [|x fs IH]; intros s; [done|]. apply IH. Qed.

Lemma written_diagnostic_other f errW format cause res :
  f <> errW -> written f (diagnostic errW format cause res) = [].
Proof.
  intros Hf. destruct cause as [err|]; [|done].
  unfold diagnostic. rewrite written_step. destruct res; [done|].
  by rewrite (proj2 (Nat.eqb_neq errW f)) by congruence.
Qed.

Ltac eqb_lia :=
  repeat match goal with
  | |- context [Nat.eqb ?a ?b] =>
      first [ rewrite (proj2 (Nat.eqb_eq a b)) by lia
            | rewrite (proj2 (Nat.eqb_neq a b)) by lia ]
  end.

Lemma server_ends_NoDup n : NoDup (server_ends (fresh_pipes 4 n)).
Proof.
  unfold server_ends. simpl.
  repeat (apply NoDup_cons; split;
          [rewrite ?elem_of_cons, elem_of_nil; lia|]).
  apply NoDup_nil_2.
Qed.

(** ** The claims *)

Section Claims.

Variable os : OS.
Variable UnknownExitStatus : byte.
Variable cd : ContainerDaemon.

Abbreviation run g := (run_goroutine os UnknownExitStatus cd g).

(** What the goroutine started by [Handle] does, in any later world. *)
Lemma completion_run τ spec u n σ :
  let ps := fresh_pipes 4 n in
  let cmd := command_of os τ spec u ps in
  let g := completion_of cmd ps in
  let res := Runner_Wait (cd_Runner cd) cmd σ in
  let b := reported UnknownExitStatus res in
  exists werr d1 d2,
    open (exec (run g) σ) = closed (server_ends ps) (open σ) /\
    since σ (exec (run g) σ)
      = EWait cmd
        :: diagnostic (go_errWriter g) "container_daemon: Wait failed: "
             res.2 d1
        ++ EWrite (go_exitWriter g) [b] werr
        :: diagnostic (go_errWriter g)
             "container_daemon: failed to Write exit status: " werr d2
        ++ close_events (server_ends ps) (open σ) /\
    (go_exitWriter g ∈ open σ ->
     (forall s, Write_err os (go_exitWriter g) [b] s = None) ->
     werr = None).
Proof.
  intros ps cmd g res b. unfold run_goroutine, exec.
  destruct (reportExitStatus_run os UnknownExitStatus (cd_Runner cd) cmd
              (go_exitWriter g) (go_errWriter g)
              (mkPipe n (S n)) (mkPipe (2 + n) (3 + n))
              (mkPipe (4 + n) (5 + n)) (mkPipe (6 + n) (7 + n)) σ)
    as (werr & d1 & d2 & E & Hw).
  exists werr, d1, d2.
  change (go_cmd g) with cmd.
  change (go_pipes g)
    with [mkPipe n (S n); mkPipe (2 + n) (3 + n);
          mkPipe (4 + n) (5 + n); mkPipe (6 + n) (7 + n)].
  rewrite E. cbn [snd open]. split; [reflexivity|].
  split; [by apply since_app|exact Hw].
Qed.

(** C5.  After a successful [Handle], which itself closes nothing, the
    goroutine it started closes each of the four descriptors the daemon
    kept (the read end of the stdin pipe and the write ends of the
    stdout, stderr and exit-status pipes) exactly once, and none of them
    is open afterwards; a descriptor that was still open is closed with
    success.  This holds in whatever world the goroutine runs, for every
    runner and every system: whether [Wait] succeeds or fails and
    whether the writes succeed or fail. *)
Theorem server_ends_closed_once d σ fds σ1 :
  Handle os cd d σ = ((fds, None), σ1) ->
  exists g,
    goroutines σ1 = goroutines σ ++ [g] /\
    server_ends (go_pipes g) !! 0 = Stdin (go_cmd g) /\
    server_ends (go_pipes g) !! 1 = Stdout (go_cmd g) /\
    server_ends (go_pipes g) !! 2 = Stderr (go_cmd g) /\
    server_ends (go_pipes g) !! 3 = Some (go_exitWriter g) /\
    forall σ2 f,
      f ∈ server_ends (go_pipes g) ->
      let σ3 := exec (run g) σ2 in
      closes f (since σ σ1) = 0 /\
      closes f (since σ2 σ3) = 1 /\
      (f ∉ open σ3) /\
      (f ∈ open σ2 -> EClose f None ∈ since σ2 σ3).
Proof.
  intros H. apply Handle_success_inv in H as (spec & u & H).
  cbn zeta in H. destruct H as (_ & _ & _ & Hg & Hl).
  eexists. split; [exact Hg|]. do 4 (split; [reflexivity|]).
  intros σ2 f Hf.
  destruct (completion_run (at_Command spec σ) spec u (next_fd σ) σ2)
    as (werr & d1 & d2 & Ho & Hev & _).
  cbn zeta in Ho, Hev. cbn zeta. rewrite Ho, Hev.
  change (go_pipes _) with (fresh_pipes 4 (next_fd σ)) in Hf |- *.
  pose proof (server_ends_NoDup (next_fd σ)) as Hnd.
  split; [|split; [|split]].
  - rewrite (since_app _ _ _ Hl), closes_app, closes_pipes. reflexivity.
  - rewrite closes_cons, closes_app, closes_diagnostic, closes_cons,
      closes_app, closes_diagnostic, closes_close_events by done.
    reflexivity.
  - rewrite elem_of_closed. tauto.
  - intros Hopen. apply elem_of_cons. right. apply elem_of_app. right.
    apply elem_of_cons. right. apply elem_of_app. right.
    by apply close_events_released.
Qed.

(** C4, as amended.  After a successful [Handle], which itself does not
    touch it, the goroutine it started touches the write end of the
    exit-status pipe (the pipe whose read end is the fourth descriptor
    returned) exactly twice: one write of a single byte, then the close.  The byte
    is the exit code [Wait] returned when [Wait] succeeded.  The pipe
    then holds exactly that byte when the system accepted the write,
    which it does when the descriptor is still open and the system
    refuses no write, and holds nothing otherwise; in both cases the
    write end is closed afterwards. *)
Theorem exit_status_one_byte d σ fds σ1 :
  Handle os cd d σ = ((fds, None), σ1) ->
  exists g exitR,
    goroutines σ1 = goroutines σ ++ [g] /\
    fds !! 3 = Some exitR /\
    EPipe (mkPipe exitR (go_exitWriter g)) ∈ since σ σ1 /\
    List.filter (on_file (go_exitWriter g)) (since σ σ1) = [] /\
    forall σ2,
      let σ3 := exec (run g) σ2 in
      let res := Runner_Wait (cd_Runner cd) (go_cmd g) σ2 in
      exists b werr cerr,
        List.filter (on_file (go_exitWriter g)) (since σ2 σ3)
          = [EWrite (go_exitWriter g) [b] werr;
             EClose (go_exitWriter g) cerr] /\
        (snd res = None -> b = fst res) /\
        written (go_exitWriter g) (since σ2 σ3)
          = match werr with None => [b] | Some _ => [] end /\
        (go_exitWriter g ∉ open σ3) /\
        (go_exitWriter g ∈ open σ2 ->
         (forall s, Write_err os (go_exitWriter g) [b] s = None) ->
         werr = None).
Proof.
  intros H. apply Handle_success_inv in H as (spec & u & H).
  cbn zeta in H. destruct H as (_ & -> & _ & Hg & Hl).
  apply since_app in Hl.
  eexists. exists (6 + next_fd σ). split; [exact Hg|].
  split; [reflexivity|]. rewrite Hl. split; [|split; [reflexivity|]].
  { cbn. rewrite !elem_of_cons. tauto. }
  intros σ2.
  destruct (completion_run (at_Command spec σ) spec u (next_fd σ) σ2)
    as (werr & d1 & d2 & Ho & Hev & Hw).
  cbn zeta in Ho, Hev, Hw. cbn zeta. rewrite Ho, Hev.
  change (go_exitWriter _) with (7 + next_fd σ) in *.
  change (go_errWriter _) with (5 + next_fd σ) in *.
  change (go_cmd _)
    with (command_of os (at_Command spec σ) spec u
            (fresh_pipes 4 (next_fd σ))) in *.
  exists (reported UnknownExitStatus
            (Runner_Wait (cd_Runner cd)
               (command_of os (at_Command spec σ) spec u
                  (fresh_pipes 4 (next_fd σ))) σ2)),
    werr.
  eexists. split; [|split; [|split; [|split]]].
  - unfold server_ends.
    cbn [fresh_pipes lookup_total list_lookup_total r w close_events].
    destruct (Runner_Wait _ _ _).2, werr;
      cbn [diagnostic app List.filter on_file]; eqb_lia; reflexivity.
  - unfold reported. by intros ->.
  - unfold written, server_ends.
    cbn [fresh_pipes lookup_total list_lookup_total r w close_events].
    destruct (Runner_Wait _ _ _).2, werr, d1, d2;
      cbn [diagnostic app flat_map]; eqb_lia; reflexivity.
  - rewrite elem_of_closed. unfold server_ends. simpl.
    rewrite !elem_of_cons. tauto.
  - exact Hw.
Qed.

(** The run of the goroutine when [Wait] fails: the results of the two
    writes are those of [Write] on the two descriptors. *)
Lemma completion_run_wait_failed τ spec u n σ code e :
  let ps := fresh_pipes 4 n in
  let cmd := command_of os τ spec u ps in
  let g := completion_of cmd ps in
  Runner_Wait (cd_Runner cd) cmd σ = (code, Some e) ->
  let msg := String.list_byte_of_string
               ("container_daemon: Wait failed: [" +:+ e +:+ "]") in
  let d1 := if decide (go_errWriter g ∈ open σ)
            then Write_err os (go_errWriter g) msg (push (EWait cmd) σ)
            else Some ErrClosed in
  let werr := if decide (go_exitWriter g ∈ open σ)
              then Write_err os (go_exitWriter g) [UnknownExitStatus]
                     (push (EWrite (go_errWriter g) msg d1)
                        (push (EWait cmd) σ))
              else Some ErrClosed in
  exists d2,
    since σ (exec (run g) σ)
    = EWait cmd :: EWrite (go_errWriter g) msg d1
      :: EWrite (go_exitWriter g) [UnknownExitStatus] werr
      :: diagnostic (go_errWriter g)
           "container_daemon: failed to Write exit status: " werr d2
      ++ close_events (server_ends ps) (open σ).
Proof.
  intros ps cmd g Hwait msg d1 werr.
  unfold run_goroutine, exec, reportExitStatus.
  change (go_cmd g) with cmd.
  change (go_pipes g)
    with [mkPipe n (S n); mkPipe (2 + n) (3 + n);
          mkPipe (4 + n) (5 + n); mkPipe (6 + n) (7 + n)].
  unfold bind at 1, call_Wait. rewrite Hwait. cbn [fst snd].
  unfold bind at 1. unfold bind at 1.
  unfold tryToReportErrorf at 1. unfold bind at 1, File_Write at 1.
  cbn [open push].
  change (String.list_byte_of_string
            (Sprintf_s "container_daemon: Wait failed: " (fmt_slice [e])))
    with msg.
  change (if decide (go_errWriter g ∈ open σ)
          then Write_err os (go_errWriter g) msg (push (EWait cmd) σ)
          else Some ErrClosed) with d1.
  unfold ret at 1. unfold ret at 1. unfold bind at 1.
  unfold File_Write at 1. cbn [open push].
  change (if decide (go_exitWriter g ∈ open σ)
          then Write_err os (go_exitWriter g) [UnknownExitStatus]
                 (push (EWrite (go_errWriter g) msg d1) (push (EWait cmd) σ))
          else Some ErrClosed) with werr.
  clearbody werr d1 msg.
  destruct werr as [e2|]; unfold bind at 1.
  - match goal with |- context [tryToReportErrorf os ?f ?ft [e2] ?s] =>
      destruct (tryToReportErrorf_run os f ft e2 s) as (d2 & ->) end.
    exists d2. rewrite tidyUp_run. apply since_app.
    cbn [snd log push diagnostic open]. by rewrite <- !app_assoc.
  - unfold ret at 1. exists None. rewrite tidyUp_run. apply since_app.
    cbn [snd log push diagnostic open app]. by rewrite <- !app_assoc.
Qed.

(** C6.  After a successful [Handle], when [Wait] fails with [e] the
    goroutine first writes the diagnostic
    ["container_daemon: Wait failed: [e]"], which is not empty, to the
    write end of the stderr pipe (the command's [Stderr]), then writes
    the byte [UnknownExitStatus] to the exit-status pipe.  The result
    [d1] of the first write is the system's answer for that descriptor,
    and so is the result [werr] of the second: when the diagnostic is
    accepted the stderr pipe holds it in front of anything else, and
    when the byte is accepted the exit-status pipe holds exactly that
    byte.  Whatever the two results are, the cleanup follows: each
    descriptor the daemon kept is closed exactly once and is not open
    afterwards. *)
Theorem wait_failure_reported d σ fds σ1 :
  Handle os cd d σ = ((fds, None), σ1) ->
  exists g,
    goroutines σ1 = goroutines σ ++ [g] /\
    Stderr (go_cmd g) = Some (go_errWriter g) /\
    forall σ2 e,
      snd (Runner_Wait (cd_Runner cd) (go_cmd g) σ2) = Some e ->
      let σ3 := exec (run g) σ2 in
      let msg := String.list_byte_of_string
                   ("container_daemon: Wait failed: [" +:+ e +:+ "]") in
      let d1 := if decide (go_errWriter g ∈ open σ2)
                then Write_err os (go_errWriter g) msg
                       (push (EWait (go_cmd g)) σ2)
                else Some ErrClosed in
      let werr := if decide (go_exitWriter g ∈ open σ2)
                  then Write_err os (go_exitWriter g) [UnknownExitStatus]
                         (push (EWrite (go_errWriter g) msg d1)
                            (push (EWait (go_cmd g)) σ2))
                  else Some ErrClosed in
      exists rest more,
        since σ2 σ3
          = EWait (go_cmd g) :: EWrite (go_errWriter g) msg d1
            :: EWrite (go_exitWriter g) [UnknownExitStatus] werr :: rest /\
        msg <> [] /\
        written (go_exitWriter g) (since σ2 σ3)
          = match werr with None => [UnknownExitStatus] | Some _ => [] end /\
        written (go_errWriter g) (since σ2 σ3)
          = match d1 with None => msg | Some _ => [] end ++ more /\
        (werr = None -> more = []) /\
        forall f, f ∈ server_ends (go_pipes g) ->
                  closes f rest = 1 /\ f ∉ open σ3.
Proof.
  intros H. apply Handle_success_inv in H as (spec & u & H).
  cbn zeta in H. destruct H as (_ & _ & _ & Hg & _).
  exists (completion_of
            (command_of os (at_Command spec σ) spec u
               (fresh_pipes 4 (next_fd σ)))
            (fresh_pipes 4 (next_fd σ))).
  split; [exact Hg|]. split; [reflexivity|].
  intros σ2 e Hwait.
  destruct (Runner_Wait (cd_Runner cd) _ σ2) as [code err] eqn:Hw.
  cbn [snd] in Hwait. subst err.
  destruct (completion_run_wait_failed (at_Command spec σ) spec u (next_fd σ)
              σ2 code e Hw) as (d2 & Hev).
  destruct (completion_run (at_Command spec σ) spec u (next_fd σ) σ2)
    as (_ & _ & _ & Ho & _).
  cbn zeta in Hev, Ho. cbn zeta.
  set (g := completion_of _ _) in *.
  assert (go_errWriter g <> go_exitWriter g) as Hne by (cbn; lia).
  change (go_pipes g) with (fresh_pipes 4 (next_fd σ)).
  set (fe := go_errWriter g) in *. set (fx := go_exitWriter g) in *.
  set (msg := String.list_byte_of_string _) in *.
  assert (msg <> []) as Hmsg by discriminate.
  set (d1 := if decide (fe ∈ _) then _ else _) in *.
  set (werr := if decide (fx ∈ _) then _ else _) in *.
  clearbody werr d1 msg fe fx.
  rewrite Ho, Hev. clear Ho Hev.
  eexists _, (written fe (diagnostic fe _ werr d2)).
  split; [reflexivity|]. split; [exact Hmsg|].
  split; [|split; [|split]].
  - rewrite !written_step, written_app, written_diagnostic_other,
      written_closes by congruence.
    rewrite Nat.eqb_refl, (proj2 (Nat.eqb_neq fe fx)) by done.
    rewrite !app_nil_r. by destruct d1, werr.
  - rewrite !written_step, written_app, written_closes.
    rewrite Nat.eqb_refl, (proj2 (Nat.eqb_neq fx fe)) by done.
    rewrite !app_nil_r. by destruct d1, werr.
  - by intros ->.
  - intros f Hf. split.
    + rewrite closes_app, closes_diagnostic, closes_close_events;
        [done|apply server_ends_NoDup|done].
    + rewrite elem_of_closed. tauto.
Qed.

(** C7.  A successful [Handle] created four pipes, wired the command's
    stdin to the read end of the first and its stdout and stderr to the
    write ends of the second and third, and returns exactly the other
    ends in the order stdin-write, stdout-read, stderr-read,
    exit-status-read.  The four are distinct and open when it returns.
    The events of the call are the four pipes, the lookup, the start and
    the [go] statement: the goroutine is pending, and [Wait] was not
    called. *)
Theorem Handle_returns_client_ends d σ fds σ1 :
  Handle os cd d σ = ((fds, None), σ1) ->
  exists p0 p1 p2 p3 name cmd g,
    since σ σ1 = [EPipe p0; EPipe p1; EPipe p2; EPipe p3;
                  ELookup name; EStart cmd None; EGo g] /\
    Stdin cmd = Some (r p0) /\
    Stdout cmd = Some (w p1) /\
    Stderr cmd = Some (w p2) /\
    go_exitWriter g = w p3 /\
    fds = [w p0; r p1; r p2; r p3] /\
    NoDup fds /\
    (forall f, f ∈ fds -> f ∈ open σ1) /\
    goroutines σ1 = goroutines σ ++ [g] /\
    existsb is_wait (since σ σ1) = false.
Proof.
  intros H. apply Handle_success_inv in H as (spec & u & H).
  cbn zeta in H. destruct H as (_ & -> & Ho & Hg & Hl).
  apply since_app in Hl. rewrite Hl, Ho.
  set (n := next_fd σ).
  exists (mkPipe n (S n)), (mkPipe (2 + n) (3 + n)),
    (mkPipe (4 + n) (5 + n)), (mkPipe (6 + n) (7 + n)).
  do 3 eexists. split; [reflexivity|].
  do 5 (split; [reflexivity|]).
  split; [|split; [|split; [exact Hg|reflexivity]]].
  - unfold client_ends. simpl.
    repeat (apply NoDup_cons; split;
            [rewrite ?elem_of_cons, elem_of_nil; lia|]).
    apply NoDup_nil_2.
  - intros f Hf. unfold client_ends in Hf. simpl in Hf.
    rewrite elem_of_union. left.
    unfold pipe_fds. rewrite elem_of_list_to_set. simpl.
    rewrite !elem_of_cons in *. tauto.
Qed.

(** C8.  When the request does not decode, [Handle] returns the decode
    error and leaves the world as it found it: no pipe was created, no
    process started, nothing was logged. *)
Theorem Handle_decode_error d err σ :
  Decode d = inl err ->
  Handle os cd d σ
  = (([], Some ("container_daemon: Decode failed: " +:+ err)), σ).
Proof. intros E. unfold Handle. by rewrite E. Qed.

(** *** The failing paths of [Handle] *)

Lemma decode_failure_path d err σ :
  Decode d = inl err ->
  Handle os cd d σ
  = (([], Some ("container_daemon: Decode failed: " +:+ err)), σ).
Proof. intros E. unfold Handle. by rewrite E. Qed.

Lemma pipe_failure_path d spec σ e σp :
  Decode d = inr spec ->
  create_pipes os 4 0 (replicate 4 inhabitant) σ = (inl e, σp) ->
  Handle os cd d σ
  = (([], Some ("container_daemon: Failed to create pipe: " +:+ e)), σp) /\
  exists k, k < 4 /\
    open σp = pipe_fds (fresh_pipes k (next_fd σ)) ∪ open σ /\
    goroutines σp = goroutines σ /\
    since σ σp = (EPipe <$> fresh_pipes k (next_fd σ)) ++ [EPipeFailed e].
Proof.
  intros Ed Ecp. split.
  - unfold Handle. rewrite Ed. unfold bind at 1. by rewrite Ecp.
  - apply create_pipes_inl in Ecp as (k & Hk & ->).
    exists k. repeat split; try done.
    apply since_app. cbn [push with_pipes log]. by rewrite app_assoc.
Qed.

Lemma lookup_failure_path d spec σ pipes σp :
  Decode d = inr spec ->
  create_pipes os 4 0 (replicate 4 inhabitant) σ = (inr pipes, σp) ->
  let found := Lookup (Users cd) (User spec) σp in
  fst found = None \/ snd found <> None ->
  exists e,
    Handle os cd d σ = (([], Some e), push (ELookup (User spec)) σp) /\
    (snd found = None ->
     e = "container_daemon: failed to lookup user " +:+ User spec) /\
    (forall err, snd found = Some err ->
     e = "container_daemon: lookup user " +:+ User spec +:+ ": " +:+ err) /\
    open σp = pipe_fds (fresh_pipes 4 (next_fd σ)) ∪ open σ /\
    goroutines σp = goroutines σ /\
    since σ (push (ELookup (User spec)) σp)
      = (EPipe <$> fresh_pipes 4 (next_fd σ)) ++ [ELookup (User spec)].
Proof.
  intros Ed Ecp found Hf.
  assert (exists e,
    Handle os cd d σ = (([], Some e), push (ELookup (User spec)) σp) /\
    (snd found = None ->
     e = "container_daemon: failed to lookup user " +:+ User spec) /\
    (forall err, snd found = Some err ->
     e = "container_daemon: lookup user " +:+ User spec +:+ ": " +:+ err))
    as (e & He & H1 & H2).
  { unfold Handle. rewrite Ed. unfold bind at 1. rewrite Ecp.
    unfold bind at 1, call_Lookup. fold found.
    destruct found as [[u|] [err|]]; cbn [fst snd] in Hf |- *.
    - eexists. split; [reflexivity|]. split; [done|]. by intros ? [= ->].
    - destruct Hf as [?|?]; done.
    - eexists. split; [reflexivity|]. split; [done|]. by intros ? [= ->].
    - eexists. split; [reflexivity|]. split; [done|]. by intros ? [= ?]. }
  exists e. split; [exact He|]. split; [exact H1|]. split; [exact H2|].
  apply create_pipes_inr in Ecp as [_ ->]. repeat split; try done.
  apply since_app. cbn [push with_pipes log]. by rewrite app_assoc.
Qed.

Lemma start_failure_path d spec u σ pipes σp e :
  Decode d = inr spec ->
  create_pipes os 4 0 (replicate 4 inhabitant) σ = (inr pipes, σp) ->
  Lookup (Users cd) (User spec) σp = (Some u, None) ->
  Runner_Start (cd_Runner cd)
    (command_of os (push (ELookup (User spec)) σp) spec u pipes)
    (push (ELookup (User spec)) σp) = Some e ->
  let σ1 := push (EStart (command_of os (push (ELookup (User spec)) σp)
                            spec u pipes) (Some e))
              (push (ELookup (User spec)) σp) in
  Handle os cd d σ
  = (([], Some ("container_daemon: running command: " +:+ e)), σ1) /\
  open σ1 = pipe_fds (fresh_pipes 4 (next_fd σ)) ∪ open σ /\
  goroutines σ1 = goroutines σ /\
  since σ σ1
    = (EPipe <$> fresh_pipes 4 (next_fd σ))
      ++ [ELookup (User spec);
          EStart (command_of os (push (ELookup (User spec)) σp) spec u pipes)
                 (Some e)].
Proof.
  intros Ed Ecp El Es σ1. split.
  - unfold Handle. rewrite Ed. unfold bind at 1. rewrite Ecp.
    unfold bind at 1, call_Lookup. rewrite El.
    unfold bind at 1, reads. unfold bind at 1, call_Start.
    unfold command_of in Es. cbn zeta in Es. by rewrite Es.
  - apply create_pipes_inr in Ecp as [_ ->]. repeat split; try done.
    apply since_app. unfold σ1. cbn [push with_pipes log].
    by rewrite <- !app_assoc.
Qed.

Lemma success_path d spec u σ pipes σp :
  Decode d = inr spec ->
  create_pipes os 4 0 (replicate 4 inhabitant) σ = (inr pipes, σp) ->
  Lookup (Users cd) (User spec) σp = (Some u, None) ->
  Runner_Start (cd_Runner cd)
    (command_of os (push (ELookup (User spec)) σp) spec u pipes)
    (push (ELookup (User spec)) σp) = None ->
  let cmd := command_of os (push (ELookup (User spec)) σp) spec u pipes in
  let g := completion_of cmd pipes in
  let σ1 := exec (spawn g) (push (EStart cmd None)
                              (push (ELookup (User spec)) σp)) in
  Handle os cd d σ = ((client_ends pipes, None), σ1) /\
  open σ1 = pipe_fds (fresh_pipes 4 (next_fd σ)) ∪ open σ /\
  since σ σ1
    = (EPipe <$> fresh_pipes 4 (next_fd σ))
      ++ [ELookup (User spec); EStart cmd None; EGo g].
Proof.
  intros Ed Ecp El Es cmd g σ1. split.
  - unfold Handle. rewrite Ed. unfold bind at 1. rewrite Ecp.
    unfold bind at 1, call_Lookup. rewrite El.
    unfold bind at 1, reads. unfold bind at 1, call_Start.
    unfold command_of in Es. cbn zeta in Es. by rewrite Es.
  - apply create_pipes_inr in Ecp as [_ ->]. split; [done|].
    apply since_app. unfold σ1, exec, spawn.
    cbn [snd push with_pipes log]. by rewrite <- !app_assoc.
Qed.

(** On every path, [Handle] closes nothing: when it returns, with or
    without an error, both ends of each pipe it created are open. *)
Lemma Handle_closes_nothing d σ :
  let σ1 := exec (Handle os cd d) σ in
  exists k evs,
    k <= 4 /\
    open σ1 = pipe_fds (fresh_pipes k (next_fd σ)) ∪ open σ /\
    since σ σ1 = (EPipe <$> fresh_pipes k (next_fd σ)) ++ evs /\
    existsb is_close evs = false.
Proof.
  cbn zeta. destruct (Decode d) as [e|spec] eqn:Ed.
  { exists 0, []. unfold exec. rewrite (decode_failure_path _ _ _ Ed).
    cbn [snd fresh_pipes fmap list_fmap app]. repeat split; [lia|..].
    - unfold pipe_fds. cbn. by rewrite (left_id_L ∅ (∪)).
    - unfold since. by rewrite drop_all. }
  destruct (create_pipes os 4 0 (replicate 4 inhabitant) σ)
    as [[e|pipes] σp] eqn:Ecp.
  { destruct (pipe_failure_path d spec σ e σp Ed Ecp)
      as (Hh & k & Hk & Ho & _ & Hev).
    exists k, [EPipeFailed e]. unfold exec. rewrite Hh. cbn [snd].
    repeat split; [lia|done..]. }
  destruct (Lookup (Users cd) (User spec) σp) as [found ferr] eqn:El.
  assert (fst (Lookup (Users cd) (User spec) σp) = None
          \/ snd (Lookup (Users cd) (User spec) σp) <> None
          \/ exists u, Lookup (Users cd) (User spec) σp = (Some u, None))
    as [Hf|[Hf|[u Hu]]].
  { rewrite El. destruct found, ferr; cbn; eauto. }
  1,2: destruct (lookup_failure_path d spec σ pipes σp Ed Ecp)
         as (e & Hh & _ & _ & Ho & _ & Hev); [tauto|];
       exists 4, [ELookup (User spec)]; unfold exec; rewrite Hh; cbn [snd];
       repeat split; [lia|done..].
  destruct (Runner_Start (cd_Runner cd)
              (command_of os (push (ELookup (User spec)) σp) spec u pipes)
              (push (ELookup (User spec)) σp)) as [e|] eqn:Es.
  - destruct (start_failure_path d spec u σ pipes σp e Ed Ecp Hu Es)
      as (Hh & Ho & _ & Hev).
    eexists 4, _. unfold exec. rewrite Hh. cbn [snd].
    repeat split; [lia|exact Ho|exact Hev|reflexivity].
  - destruct (success_path d spec u σ pipes σp Ed Ecp Hu Es)
      as (Hh & Ho & Hev).
    eexists 4, _. unfold exec at 1 2. rewrite Hh. cbn [snd].
    repeat split; [lia|exact Ho|exact Hev|reflexivity].
Qed.

(** C10.  When the resolver returns a record for whose [Uid] or [Gid]
    [fmt.Sscanf] returns an error, as it does for a string that is not
    a decimal number, [Handle] goes on: it calls [Start] with a command
    whose credential has 0 in each field that did not scan, and its own
    result is an error only when [Start] returns one; when [Start]
    succeeds it returns the four client ends. *)
Theorem Handle_ignores_scan_errors d spec u σ pipes σp :
  Decode d = inr spec ->
  create_pipes os 4 0 (replicate 4 inhabitant) σ = (inr pipes, σp) ->
  Lookup (Users cd) (User spec) σp = (Some u, None) ->
  Sscanf_uint32 os (Uid u) = None \/ Sscanf_uint32 os (Gid u) = None ->
  exists cmd,
    let started :=
      Runner_Start (cd_Runner cd) cmd (push (ELookup (User spec)) σp) in
    EStart cmd started ∈ since σ (exec (Handle os cd d) σ) /\
    (Sscanf_uint32 os (Uid u) = None -> Credential_Uid cmd = 0%N) /\
    (Sscanf_uint32 os (Gid u) = None -> Credential_Gid cmd = 0%N) /\
    snd (eval (Handle os cd d) σ)
      = ((fun e => "container_daemon: running command: " +:+ e) <$> started) /\
    (started = None -> fst (eval (Handle os cd d) σ) = client_ends pipes).
Proof.
  intros Ed Ecp El _.
  exists (command_of os (push (ELookup (User spec)) σp) spec u pipes).
  cbn zeta.
  destruct (Runner_Start (cd_Runner cd)
              (command_of os (push (ELookup (User spec)) σp) spec u pipes)
              (push (ELookup (User spec)) σp)) as [e|] eqn:Es.
  - destruct (start_failure_path d spec u σ pipes σp e Ed Ecp El Es)
      as (Hh & _ & _ & Hev).
    unfold exec, eval. rewrite Hh. cbn [fst snd]. rewrite Hev.
    split; [|split; [|split; [|split]]]; try done.
    + rewrite elem_of_app, !elem_of_cons. tauto.
    + cbn [command_of Credential_Uid]. unfold Sscanf_d. by intros ->.
    + cbn [command_of Credential_Gid]. unfold Sscanf_d. by intros ->.
  - destruct (success_path d spec u σ pipes σp Ed Ecp El Es)
      as (Hh & _ & Hev).
    unfold exec at 1, eval. rewrite Hh. cbn [fst snd]. rewrite Hev.
    split; [|split; [|split; [|split]]]; try done.
    + rewrite elem_of_app, !elem_of_cons. tauto.
    + cbn [command_of Credential_Uid]. unfold Sscanf_d. by intros ->.
    + cbn [command_of Credential_Gid]. unfold Sscanf_d. by intros ->.
Qed.

(** *** [Stop] *)

Lemma exec_times_S {A} n (m : M A) σ :
  exec (times (S n) m) σ = exec (times n m) (exec m σ).
Proof.
  unfold exec. cbn [times]. unfold bind, ret.
  destruct (m σ) as [a σa]. cbn [snd]. by destruct (times n m σa).
Qed.

Lemma eval_times_S {A} n (m : M A) σ :
  eval (times (S n) m) σ = eval m σ :: eval (times n m) (exec m σ).
Proof.
  unfold eval, exec. cbn [times]. unfold bind, ret.
  destruct (m σ) as [a σa]. cbn [fst snd]. by destruct (times n m σa).
Qed.

Lemma Stop_run σ :
  Stop cd σ
  = ((fun e => "container_daemon: stopping the listener: " +:+ e)
       <$> eval (call_Listener_Stop (cd_Listener cd)) σ,
     exec (call_Listener_Stop (cd_Listener cd)) σ).
Proof.
  unfold Stop, bind, eval, exec.
  by destruct (call_Listener_Stop (cd_Listener cd) σ) as [[e|] σ'].
Qed.

(** C9, as amended.  Calling [Stop] any number of times is calling the
    listener's [Stop] that many times and nothing else: the world is
    left as these calls leave it, and each call returns the error of
    the listener's [Stop], wrapped, or none when that returned none.  So
    descriptors that the listener's [Stop] never closes, as those [fds]
    handed out earlier, are still open after the calls. *)
Theorem Stop_follows_listener (fds : list File) n σ :
  (forall τ f, f ∈ fds -> f ∈ open τ ->
               f ∈ open (exec (Listener_Stop (cd_Listener cd)) τ)) ->
  (forall f, f ∈ fds -> f ∈ open σ) ->
  (forall f, f ∈ fds -> f ∈ open (exec (times n (Stop cd)) σ)) /\
  eval (times n (Stop cd)) σ
  = (fun res : error =>
       (fun e => "container_daemon: stopping the listener: " +:+ e) <$> res)
    <$> eval (times n (call_Listener_Stop (cd_Listener cd))) σ /\
  exec (times n (Stop cd)) σ
  = exec (times n (call_Listener_Stop (cd_Listener cd))) σ.
Proof.
  intros Hkeep. revert σ. induction n as [|n IH]; intros σ Hopen.
  { by repeat split. }
  assert (exec (Stop cd) σ = exec (call_Listener_Stop (cd_Listener cd)) σ)
    as Hex by (unfold exec at 1; by rewrite Stop_run).
  assert (eval (Stop cd) σ
          = (fun e => "container_daemon: stopping the listener: " +:+ e)
              <$> eval (call_Listener_Stop (cd_Listener cd)) σ)
    as Hev by (unfold eval at 1; by rewrite Stop_run).
  destruct (IH (exec (Stop cd) σ)) as (Ho & Hr & Hw).
  { intros f Hf. rewrite Hex. unfold exec, call_Listener_Stop.
    specialize (Hkeep σ f Hf (Hopen f Hf)). unfold exec in Hkeep.
    by destruct (Listener_Stop (cd_Listener cd) σ). }
  rewrite !exec_times_S, !eval_times_S. split; [exact Ho|]. split.
  - rewrite Hr, Hev, Hex. reflexivity.
  - by rewrite Hw, Hex.
Qed.

End Claims.

(** ** Runs on concrete inputs *)

Section Runs.

Import Sample.

Example scan_uint32_number : scan_uint32 "65534" = Some 65534%N.
Proof. reflexivity. Qed.

Example scan_uint32_blanks_and_rest : scan_uint32 "  12ab" = Some 12%N.
Proof. reflexivity. Qed.

Example scan_uint32_letters : scan_uint32 "abc" = None.
Proof. reflexivity. Qed.

Example scan_uint32_empty : scan_uint32 "" = None.
Proof. reflexivity. Qed.

(** A carriage return before the number is white space; a newline is
    not. *)
Example scan_uint32_carriage_return :
  scan_uint32 (String (ascii_of_nat 13) "12") = Some 12%N /\
  scan_uint32 (String (ascii_of_nat 10) "12") = None.
Proof. split; reflexivity. Qed.

Example scan_uint32_overflow :
  scan_uint32 "4294967295" = Some 4294967295%N /\
  scan_uint32 "4294967296" = None.
Proof. split; reflexivity. Qed.

(** The scenario of the specification: [/bin/echo hi] for user
    [nobody].  [Handle] returns the four client ends; the goroutine,
    run afterwards, sends the exit status and closes the server ends. *)
Example echo_scenario :
  let cd := daemon (runner_ok x00) in
  let σ1 := exec (Handle os_ok cd (echo "nobody")) world0 in
  let σ2 := exec (schedule os_ok Unknown cd) σ1 in
  eval (Handle os_ok cd (echo "nobody")) world0 = ([4; 5; 7; 9], None) /\
  List.filter is_start (log σ1)
    = [EStart (mkCmd "/bin/echo" ["/bin/echo"; "hi"] None 65534 65534
                     (Some 3) (Some 6) (Some 8)) None] /\
  written 10 (log σ2) = [x00] /\
  since σ1 σ2
    = [EWait (mkCmd "/bin/echo" ["/bin/echo"; "hi"] None 65534 65534
                    (Some 3) (Some 6) (Some 8));
       EWrite 10 [x00] None;
       EClose 3 None; EClose 6 None; EClose 8 None; EClose 10 None] /\
  open σ2 = {[0; 1; 2; 4; 5; 7; 9]} /\
  goroutines σ2 = [].
Proof. vm_compute. repeat split. Qed.

(** The same when the runner cannot tell the exit status and nobody
    reads the pipes any more: both diagnostics and the status byte are
    attempted, and the server ends are closed all the same. *)
Example lost_child_scenario :
  let cd := daemon runner_lost in
  let σ1 := exec (Handle os_epipe cd (echo "nobody")) world0 in
  let σ2 := exec (schedule os_epipe Unknown cd) σ1 in
  List.filter (on_file 10) (since σ1 σ2)
    = [EWrite 10 [Unknown] (Some "broken pipe"); EClose 10 None] /\
  written 10 (log σ2) = [] /\
  map (fun f => closes f (since σ1 σ2)) [3; 6; 8; 10] = [1; 1; 1; 1] /\
  open σ2 = {[0; 1; 2; 4; 5; 7; 9]}.
Proof. vm_compute. repeat split. Qed.

(** C1.  A request for a user the resolver does not know, on a system
    that refuses nothing: [Handle] returns the lookup error and starts
    no process, but the four pipes it created before the lookup are all
    still open when it returns; it closed none of their eight ends. *)
Theorem Handle_unknown_user_leaks :
  let run := Handle os_ok (daemon (runner_ok x00)) (echo "doesnotexist") in
  eval run world0
    = ([], Some "container_daemon: failed to lookup user doesnotexist") /\
  existsb is_start (log (exec run world0)) = false /\
  goroutines (exec run world0) = [] /\
  existsb is_close (log (exec run world0)) = false /\
  open (exec run world0)
    = open world0 ∪ list_to_set [3; 4; 5; 6; 7; 8; 9; 10].
Proof. vm_compute. repeat split. Qed.

(** The same when the lookup itself fails. *)
Example Handle_lookup_error_leaks :
  let cd := mkDaemon listener_ok passwd_down (runner_ok x00) in
  let run := Handle os_ok cd (echo "nobody") in
  eval run world0
    = ([], Some "container_daemon: lookup user nobody: store unavailable") /\
  existsb is_start (log (exec run world0)) = false /\
  existsb is_close (log (exec run world0)) = false /\
  open (exec run world0)
    = open world0 ∪ list_to_set [3; 4; 5; 6; 7; 8; 9; 10].
Proof. vm_compute. repeat split. Qed.

(** C2.  With a limit of six descriptors and three in use, the first
    pipe is created and the second is refused: [Handle] returns the
    allocation error, and both ends of the first pipe are still open
    when it returns; it closed nothing. *)
Theorem Handle_pipe_failure_leaks :
  let run := Handle (os_limit 6) (daemon (runner_ok x00)) (echo "nobody") in
  eval run world0
    = ([], Some "container_daemon: Failed to create pipe: too many open files")
  /\
  log (exec run world0)
    = [EPipe (mkPipe 3 4); EPipeFailed "too many open files"] /\
  open (exec run world0) = open world0 ∪ {[3; 4]}.
Proof. vm_compute. repeat split. Qed.

(** C3.  A runner that cannot start the command: [Handle] returns the
    start error and starts no goroutine, but all eight pipe ends are
    still open when it returns; it closed none of them. *)
Theorem Handle_start_failure_leaks :
  let run := Handle os_ok (daemon runner_noexec) (echo "nobody") in
  eval run world0
    = ([], Some "container_daemon: running command: no such file or directory")
  /\
  goroutines (exec run world0) = [] /\
  existsb is_go (log (exec run world0)) = false /\
  existsb is_close (log (exec run world0)) = false /\
  open (exec run world0)
    = open world0 ∪ list_to_set [3; 4; 5; 6; 7; 8; 9; 10].
Proof. vm_compute. repeat split. Qed.

(** A request that succeeds: user [nobody], the command exits with 42. *)
Lemma exit_status_one_byte_witness :
  let cd := daemon (runner_ok x2a) in
  let σ1 := exec (Handle os_ok cd (echo "nobody")) world0 in
  Handle os_ok cd (echo "nobody") world0 = (([4; 5; 7; 9], None), σ1) /\
  exists g exitR,
    goroutines σ1 = goroutines world0 ++ [g] /\
    [4; 5; 7; 9] !! 3 = Some exitR /\
    EPipe (mkPipe exitR (go_exitWriter g)) ∈ since world0 σ1 /\
    List.filter (on_file (go_exitWriter g)) (since world0 σ1) = [] /\
    forall σ2,
      let σ3 := exec (run_goroutine os_ok Unknown cd g) σ2 in
      let res := Runner_Wait (cd_Runner cd) (go_cmd g) σ2 in
      exists b werr cerr,
        List.filter (on_file (go_exitWriter g)) (since σ2 σ3)
          = [EWrite (go_exitWriter g) [b] werr;
             EClose (go_exitWriter g) cerr] /\
        (snd res = None -> b = fst res) /\
        written (go_exitWriter g) (since σ2 σ3)
          = match werr with None => [b] | Some _ => [] end /\
        (go_exitWriter g ∉ open σ3) /\
        (go_exitWriter g ∈ open σ2 ->
         (forall s, Write_err os_ok (go_exitWriter g) [b] s = None) ->
         werr = None).
Proof.
  assert (Handle os_ok (daemon (runner_ok x2a)) (echo "nobody") world0
          = (([4; 5; 7; 9], None),
             exec (Handle os_ok (daemon (runner_ok x2a)) (echo "nobody"))
               world0))
    as H by (vm_compute; reflexivity).
  split; [exact H|].
  exact (exit_status_one_byte os_ok Unknown _ _ _ _ _ H).
Defined.

(** C4.  The same request when nobody reads the exit-status pipe any
    more: [Handle] succeeds, the command exits with 42, the write end 10
    is open when the goroutine writes, and the write is refused.  The
    pipe is closed holding no byte, so its reader sees the end of the
    stream at once; the goroutine tried to say so on the stderr pipe. *)
Lemma exit_status_lost_when_refused :
  let cd := daemon (runner_ok x2a) in
  let σ1 := exec (Handle os_epipe cd (echo "nobody")) world0 in
  let σ2 := exec (schedule os_epipe Unknown cd) σ1 in
  eval (Handle os_epipe cd (echo "nobody")) world0 = ([4; 5; 7; 9], None) /\
  existsb is_start (log σ1) = true /\
  (forall g, g ∈ goroutines σ1 ->
             Runner_Wait (cd_Runner cd) (go_cmd g) σ1 = (x2a, None) /\
             go_exitWriter g = 10) /\
  10 ∈ open σ1 /\
  since σ1 σ2
    = [EWait (mkCmd "/bin/echo" ["/bin/echo"; "hi"] None 65534 65534
                (Some 3) (Some 6) (Some 8));
       EWrite 10 [x2a] (Some "broken pipe");
       EWrite 8 (String.list_byte_of_string
                   ("container_daemon: failed to Write exit status: "
                    +:+ "[broken pipe]"))
             (Some "broken pipe");
       EClose 3 None; EClose 6 None; EClose 8 None; EClose 10 None] /\
  written 10 (log σ2) = [] /\
  10 ∉ open σ2.
Proof.
  cbn zeta. split; [by vm_compute|]. split; [by vm_compute|].
  split; [|split; [|split; [by vm_compute|split; [by vm_compute|]]]].
  - intros g Hg. vm_compute in Hg.
    apply list_elem_of_singleton in Hg as ->. by vm_compute.
  - apply (bool_decide_unpack _). vm_compute. exact I.
  - apply (bool_decide_unpack _). vm_compute. exact I.
Qed.

Lemma server_ends_closed_once_witness :
  let cd := daemon (runner_ok x2a) in
  let σ1 := exec (Handle os_epipe cd (echo "nobody")) world0 in
  Handle os_epipe cd (echo "nobody") world0 = (([4; 5; 7; 9], None), σ1) /\
  exists g,
    goroutines σ1 = goroutines world0 ++ [g] /\
    server_ends (go_pipes g) !! 0 = Stdin (go_cmd g) /\
    server_ends (go_pipes g) !! 1 = Stdout (go_cmd g) /\
    server_ends (go_pipes g) !! 2 = Stderr (go_cmd g) /\
    server_ends (go_pipes g) !! 3 = Some (go_exitWriter g) /\
    forall σ2 f,
      f ∈ server_ends (go_pipes g) ->
      let σ3 := exec (run_goroutine os_epipe Unknown cd g) σ2 in
      closes f (since world0 σ1) = 0 /\
      closes f (since σ2 σ3) = 1 /\
      (f ∉ open σ3) /\
      (f ∈ open σ2 -> EClose f None ∈ since σ2 σ3).
Proof.
  assert (Handle os_epipe (daemon (runner_ok x2a)) (echo "nobody") world0
          = (([4; 5; 7; 9], None),
             exec (Handle os_epipe (daemon (runner_ok x2a)) (echo "nobody"))
               world0))
    as H by (vm_compute; reflexivity).
  split; [exact H|].
  exact (server_ends_closed_once os_epipe Unknown _ _ _ _ _ H).
Defined.

(** The runner loses track of the child on a system that accepts every
    write: the diagnostic reaches the stderr pipe and the byte
    [UnknownExitStatus] the exit-status pipe. *)
Lemma wait_failure_reported_witness :
  let cd := daemon runner_lost in
  let σ1 := exec (Handle os_ok cd (echo "nobody")) world0 in
  Handle os_ok cd (echo "nobody") world0 = (([4; 5; 7; 9], None), σ1) /\
  exists g,
    goroutines σ1 = goroutines world0 ++ [g] /\
    Stderr (go_cmd g) = Some (go_errWriter g) /\
    snd (Runner_Wait (cd_Runner cd) (go_cmd g) σ1)
      = Some "no child processes" /\
    let σ3 := exec (run_goroutine os_ok Unknown cd g) σ1 in
    let msg := String.list_byte_of_string
                 "container_daemon: Wait failed: [no child processes]" in
    (exists rest,
        since σ1 σ3
          = EWait (go_cmd g) :: EWrite (go_errWriter g) msg None
            :: EWrite (go_exitWriter g) [Unknown] None :: rest /\
        forall f, f ∈ server_ends (go_pipes g) ->
                  closes f rest = 1 /\ f ∉ open σ3) /\
    written (go_exitWriter g) (since σ1 σ3) = [Unknown] /\
    written (go_errWriter g) (since σ1 σ3) = msg.
Proof.
  cbn zeta.
  assert (Handle os_ok (daemon runner_lost) (echo "nobody") world0
          = (([4; 5; 7; 9], None),
             exec (Handle os_ok (daemon runner_lost) (echo "nobody"))
               world0))
    as H by (vm_compute; reflexivity).
  split; [exact H|].
  destruct (wait_failure_reported os_ok Unknown _ _ _ _ _ H)
    as (g & Hg & Hs & Hall).
  assert (Hg' := Hg). vm_compute in Hg'. injection Hg' as <-.
  eexists. split; [exact Hg|]. split; [exact Hs|]. split; [reflexivity|].
  specialize (Hall (exec (Handle os_ok (daemon runner_lost) (echo "nobody"))
                      world0) "no child processes" eq_refl).
  cbn zeta in Hall.
  destruct Hall as (rest & more & Hsince & _ & Hx & He & Hm & Hc).
  assert (more = []) as -> by (apply Hm; vm_compute; reflexivity).
  split; [|split].
  - exists rest. split; [|exact Hc].
    vm_compute in Hsince |- *. exact Hsince.
  - vm_compute in Hx |- *. exact Hx.
  - vm_compute in He |- *. exact He.
Defined.

Lemma Handle_returns_client_ends_witness :
  let cd := daemon (runner_ok x2a) in
  let σ1 := exec (Handle os_ok cd (echo "nobody")) world0 in
  Handle os_ok cd (echo "nobody") world0 = (([4; 5; 7; 9], None), σ1) /\
  exists p0 p1 p2 p3 name cmd g,
    since world0 σ1 = [EPipe p0; EPipe p1; EPipe p2; EPipe p3;
                   ELookup name; EStart cmd None; EGo g] /\
    Stdin cmd = Some (r p0) /\
    Stdout cmd = Some (w p1) /\
    Stderr cmd = Some (w p2) /\
    go_exitWriter g = w p3 /\
    [4; 5; 7; 9] = [w p0; r p1; r p2; r p3] /\
    NoDup [4; 5; 7; 9] /\
    (forall f, f ∈ [4; 5; 7; 9] -> f ∈ open σ1) /\
    goroutines σ1 = goroutines world0 ++ [g] /\
    existsb is_wait (since world0 σ1) = false.
Proof.
  assert (Handle os_ok (daemon (runner_ok x2a)) (echo "nobody") world0
          = (([4; 5; 7; 9], None),
             exec (Handle os_ok (daemon (runner_ok x2a)) (echo "nobody"))
               world0))
    as H by (vm_compute; reflexivity).
  split; [exact H|].
  exact (Handle_returns_client_ends os_ok _ _ _ _ _ H).
Defined.

Lemma Handle_decode_error_witness :
  Decode garbled = inl "unexpected end of JSON input" /\
  Handle os_ok (daemon (runner_ok x00)) garbled world0
  = (([], Some ("container_daemon: Decode failed: "
                +:+ "unexpected end of JSON input")), world0).
Proof.
  split; [reflexivity|].
  exact (Handle_decode_error os_ok (daemon (runner_ok x00)) garbled
           "unexpected end of JSON input" world0 eq_refl).
Defined.

(** The record of user [odd] has the Uid [abc]. *)
Lemma Handle_ignores_scan_errors_witness :
  let cd := daemon (runner_ok x00) in
  let spec := mkSpec "/bin/echo" ["hi"] "odd" in
  let u := mkUser "abc" "1000" in
  let pipes := fresh_pipes 4 3 in
  let σp := with_pipes pipes world0 in
  (Decode (echo "odd") = inr spec /\
   create_pipes os_ok 4 0 (replicate 4 inhabitant) world0 = (inr pipes, σp) /\
   Lookup (Users cd) (User spec) σp = (Some u, None) /\
   (Sscanf_uint32 os_ok (Uid u) = None \/
    Sscanf_uint32 os_ok (Gid u) = None)) /\
  exists cmd,
    let started :=
      Runner_Start (cd_Runner cd) cmd (push (ELookup (User spec)) σp) in
    EStart cmd started
      ∈ since world0 (exec (Handle os_ok cd (echo "odd")) world0) /\
    (Sscanf_uint32 os_ok (Uid u) = None -> Credential_Uid cmd = 0%N) /\
    (Sscanf_uint32 os_ok (Gid u) = None -> Credential_Gid cmd = 0%N) /\
    snd (eval (Handle os_ok cd (echo "odd")) world0)
      = ((fun e => "container_daemon: running command: " +:+ e) <$> started) /\
    (started = None ->
     fst (eval (Handle os_ok cd (echo "odd")) world0) = client_ends pipes).
Proof.
  assert (create_pipes os_ok 4 0 (replicate 4 inhabitant) world0
          = (inr (fresh_pipes 4 3), with_pipes (fresh_pipes 4 3) world0))
    as Hp by (vm_compute; reflexivity).
  assert (scan_uint32 "abc" = None \/ scan_uint32 "1000" = None)
    as Hs by (left; reflexivity).
  split;
    [split; [reflexivity|split; [exact Hp|split; [reflexivity|exact Hs]]]|].
  exact (Handle_ignores_scan_errors os_ok (daemon (runner_ok x00))
           (echo "odd") (mkSpec "/bin/echo" ["hi"] "odd")
           (mkUser "abc" "1000") world0 (fresh_pipes 4 3)
           (with_pipes (fresh_pipes 4 3) world0) eq_refl Hp eq_refl Hs).
Defined.

(** C9.  A listener that closes its socket on [Stop]: once the daemon
    is initialised, the first call of its [Stop] succeeds and the second
    returns an error. *)
Lemma Stop_twice_fails :
  let cd := mkDaemon (listener_socket 3) passwd (runner_ok x00) in
  let σ := exec (Init cd) world0 in
  eval (Init cd) world0 = None /\
  eval (Stop cd) σ = None /\
  eval (Stop cd) (exec (Stop cd) σ)
  = Some ("container_daemon: stopping the listener: "
          +:+ "use of closed network connection").
Proof. vm_compute. repeat split. Qed.

(** The same listener, two calls of [Stop] after a request was handled:
    the listener closes its socket 3 and none of the descriptors
    returned. *)
Lemma Stop_follows_listener_witness :
  let cd := mkDaemon (listener_socket 3) passwd (runner_ok x00) in
  let σ := exec (Handle os_ok cd (echo "nobody")) (exec (Init cd) world0) in
  let fds := [5; 6; 8; 10] in
  ((forall τ f, f ∈ fds -> f ∈ open τ ->
                f ∈ open (exec (Listener_Stop (cd_Listener cd)) τ)) /\
   (forall f, f ∈ fds -> f ∈ open σ)) /\
  (forall f, f ∈ fds -> f ∈ open (exec (times 2 (Stop cd)) σ)) /\
  eval (times 2 (Stop cd)) σ
  = (fun res : error =>
       (fun e => "container_daemon: stopping the listener: " +:+ e) <$> res)
    <$> eval (times 2 (call_Listener_Stop (cd_Listener cd))) σ /\
  exec (times 2 (Stop cd)) σ
  = exec (times 2 (call_Listener_Stop (cd_Listener cd))) σ.
Proof.
  assert (forall τ f, f ∈ [5; 6; 8; 10] -> f ∈ open τ ->
            f ∈ open (exec (Listener_Stop (listener_socket 3)) τ)) as Hkeep.
  { intros τ f Hf Hin. unfold exec, listener_socket, Listener_Stop, bind,
      File_Close, ret. cbn [snd open].
    apply elem_of_difference. split; [exact Hin|].
    rewrite elem_of_singleton. intros ->.
    rewrite !elem_of_cons, elem_of_nil in Hf. lia. }
  assert (forall f, f ∈ [5; 6; 8; 10] ->
            f ∈ open (exec (Handle os_ok
                              (mkDaemon (listener_socket 3) passwd
                                 (runner_ok x00)) (echo "nobody"))
                        (exec (Init (mkDaemon (listener_socket 3) passwd
                                       (runner_ok x00))) world0)))
    as Hopen.
  { intros f Hf. rewrite !elem_of_cons, elem_of_nil in Hf.
    destruct Hf as [->|[->|[->|[->|[]]]]];
      apply (bool_decide_unpack _); vm_compute; exact I. }
  split; [by split|].
  exact (Stop_follows_listener
           (mkDaemon (listener_socket 3) passwd (runner_ok x00))
           [5; 6; 8; 10] 2 _ Hkeep Hopen).
Defined.

End Runs.

(** * Further properties of the daemon *)

Lemma on_file_close_events_notin f fs : forall s,
  f ∉ fs -> List.filter (on_file f) (close_events fs s) = [].
Proof.
  induction fs as [|x fs IH]; intros s Hf; [done|].
  apply not_elem_of_cons in Hf as [Hx Hf].
  cbn [close_events List.filter on_file].
  rewrite (proj2 (Nat.eqb_neq x f)) by congruence. by apply IH.
Qed.

Lemma on_file_diagnostic f errW format cause res :
  f <> errW ->
  List.filter (on_file f) (diagnostic errW format cause res) = [].
Proof.
  intros Hf. destruct cause; [|done]. cbn [diagnostic List.filter on_file].
  by rewrite (proj2 (Nat.eqb_neq errW f)) by congruence.
Qed.

Ltac notin_lia :=
  rewrite ?not_elem_of_cons;
  repeat split; try lia; try apply not_elem_of_nil.

Lemma not_elem_of_pipes e (ps : list Pipe) :
  (forall p, e <> EPipe p) -> e ∉ EPipe <$> ps.
Proof.
  intros He Hin. apply list_elem_of_fmap_1 in Hin as (p & -> & _).
  by apply (He p).
Qed.

Lemma written_cons f e l :
  written f (e :: l)
  = match e with
    | EWrite f' data None => if Nat.eqb f' f then data else []
    | _ => []
    end ++ written f l.
Proof. reflexivity. Qed.

Lemma written_close_events f fs : forall s, written f (close_events fs s) = [].
Proof. induction fs as [|x fs IH]; intros s; [done|]. apply IH. Qed.

(** Closing descriptors none of which is open: every close returns
    [ErrClosed] and the open descriptors stay as they are. *)
Lemma close_events_all_closed fs : forall s,
  (forall f, f ∈ fs -> f ∉ s) ->
  close_events fs s = (fun f => EClose f (Some ErrClosed)) <$> fs /\
  closed fs s = s.
Proof.
  induction fs as [|x fs IH]; intros s Hs; [done|].
  assert (x ∉ s) as Hx by (apply Hs, elem_of_cons; by left).
  assert (s ∖ {[x]} = s) as Hd.
  { apply set_eq. intros y. rewrite elem_of_difference, elem_of_singleton.
    split; [tauto|]. intros Hy. split; [done|]. by intros ->. }
  cbn [close_events closed foldl fmap list_fmap].
  rewrite decide_False by done. rewrite Hd.
  destruct (IH s) as [-> Hc].
  { intros f Hf. apply Hs, elem_of_cons. by right. }
  split; [done|]. exact Hc.
Qed.

Lemma File_Write_open os f data σ :
  f ∈ open σ ->
  File_Write os f data σ
  = (Write_err os f data σ, push (EWrite f data (Write_err os f data σ)) σ).
Proof. intros Hf. unfold File_Write. by rewrite decide_True. Qed.

Section More.

Variable os : OS.
Variable UnknownExitStatus : byte.
Variable cd : ContainerDaemon.

Abbreviation run' g := (run_goroutine os UnknownExitStatus cd g).

(** The five ways through [Handle]. *)
Lemma Handle_cases d σ :
  let n := next_fd σ in
  (exists e,
     Decode d = inl e /\
     Handle os cd d σ
     = (([], Some ("container_daemon: " +:+ "Decode failed: " +:+ e)), σ))
  \/ (exists e k σ1,
        k < 4 /\
        Handle os cd d σ
        = (([], Some ("container_daemon: " +:+ "Failed to create pipe: "
                      +:+ e)), σ1) /\
        goroutines σ1 = goroutines σ /\
        since σ σ1 = (EPipe <$> fresh_pipes k n) ++ [EPipeFailed e])
  \/ (exists msg name σ1,
        Handle os cd d σ = (([], Some ("container_daemon: " +:+ msg)), σ1) /\
        goroutines σ1 = goroutines σ /\
        since σ σ1 = (EPipe <$> fresh_pipes 4 n) ++ [ELookup name])
  \/ (exists e name cmd σ1,
        Handle os cd d σ
        = (([], Some ("container_daemon: " +:+ "running command: " +:+ e)),
           σ1) /\
        goroutines σ1 = goroutines σ /\
        since σ σ1
        = (EPipe <$> fresh_pipes 4 n) ++ [ELookup name; EStart cmd (Some e)])
  \/ (exists name g σ1,
        Handle os cd d σ = ((client_ends (fresh_pipes 4 n), None), σ1) /\
        goroutines σ1 = goroutines σ ++ [g] /\
        since σ σ1
        = (EPipe <$> fresh_pipes 4 n)
          ++ [ELookup name; EStart (go_cmd g) None; EGo g]).
Proof.
  cbn zeta. destruct (Decode d) as [e|spec] eqn:Ed.
  { left. exists e. split; [done|]. by apply decode_failure_path. }
  right.
  destruct (create_pipes os 4 0 (replicate 4 inhabitant) σ)
    as [[e|pipes] σp] eqn:Ecp.
  { left. destruct (pipe_failure_path os cd d spec σ e σp Ed Ecp)
      as (Hh & k & Hk & _ & Hg & Hev).
    by exists e, k, σp. }
  right.
  destruct (Lookup (Users cd) (User spec) σp) as [found ferr] eqn:El.
  assert (fst (Lookup (Users cd) (User spec) σp) = None
          \/ snd (Lookup (Users cd) (User spec) σp) <> None
          \/ exists u, Lookup (Users cd) (User spec) σp = (Some u, None))
    as [Hf|[Hf|[u Hu]]].
  { rewrite El. destruct found, ferr; cbn; eauto. }
  1,2: left;
       destruct (lookup_failure_path os cd d spec σ pipes σp Ed Ecp)
         as (e & Hh & H1 & H2 & _ & Hg & Hev); [tauto|];
       rewrite El in H1, H2; cbn [snd] in H1, H2;
       destruct ferr as [err|];
       [rewrite (H2 err eq_refl) in Hh|rewrite (H1 eq_refl) in Hh];
       eexists _, (User spec), _; (split; [exact Hh|by split]).
  right.
  pose proof Ecp as Ecp'. apply create_pipes_inr in Ecp' as [-> ->].
  rewrite fill_fresh in *.
  destruct (Runner_Start (cd_Runner cd)
              (command_of os (at_Command spec σ) spec u
                 (fresh_pipes 4 (next_fd σ)))
              (at_Command spec σ)) as [e|] eqn:Es.
  - left.
    destruct (start_failure_path os cd d spec u σ _ _ e Ed Ecp Hu Es)
      as (Hh & _ & Hg & Hev).
    eexists e, (User spec), _, _. split; [exact Hh|by split].
  - right.
    destruct (success_path os cd d spec u σ _ _ Ed Ecp Hu Es)
      as (Hh & _ & Hev).
    exists (User spec),
      (completion_of
         (command_of os (at_Command spec σ) spec u
            (fresh_pipes 4 (next_fd σ)))
         (fresh_pipes 4 (next_fd σ))).
    eexists. split; [exact Hh|]. split; [|exact Hev].
    reflexivity.
Qed.

(** X1.  [Handle] returns files or an error, never both: either the four
    client ends, distinct, and no error, or no file and an error whose
    message starts with the name of the package. *)
Theorem Handle_files_xor_error d σ :
  let res := eval (Handle os cd d) σ in
  (snd res = None /\ length (fst res) = 4 /\ NoDup (fst res))
  \/ (fst res = [] /\
      exists msg, snd res = Some ("container_daemon: " +:+ msg)).
Proof.
  cbn zeta. unfold eval.
  destruct (Handle_cases d σ)
    as [(e & _ & ->)|[(e & k & σ1 & _ & -> & _)|[(msg & name & σ1 & -> & _)
       |[(e & name & cmd & σ1 & -> & _)|(name & g & σ1 & -> & _)]]]];
    cbn [fst snd]; [right; eauto..|left].
  split; [done|]. split; [done|].
  unfold client_ends. simpl.
  repeat (apply NoDup_cons; split;
          [rewrite ?elem_of_cons, elem_of_nil; lia|]).
  apply NoDup_nil_2.
Qed.

(** X2.  A completion goroutine is started exactly when [Handle] succeeds,
    and then for the command that was started.  When [Handle] returns
    an error, the pending goroutines are as before and no process was
    started. *)
Theorem Handle_goroutine_iff_success d σ :
  let res := eval (Handle os cd d) σ in
  let σ1 := exec (Handle os cd d) σ in
  (snd res = None /\
   exists g, goroutines σ1 = goroutines σ ++ [g] /\
             EStart (go_cmd g) None ∈ since σ σ1)
  \/ (snd res <> None /\
      goroutines σ1 = goroutines σ /\
      forall cmd, EStart cmd None ∉ since σ σ1).
Proof.
  cbn zeta. unfold eval, exec.
  destruct (Handle_cases d σ)
    as [(e & _ & ->)|[(e & k & σ1 & _ & -> & Hg & Hev)
       |[(msg & name & σ1 & -> & Hg & Hev)
       |[(e & name & cmd & σ1 & -> & Hg & Hev)
        |(name & g & σ1 & -> & Hg & Hev)]]]];
    cbn [fst snd]; [right..|left].
  - split; [done|]. split; [done|]. intros cmd.
    unfold since. rewrite drop_all. apply not_elem_of_nil.
  - split; [done|]. split; [done|]. intros cmd. rewrite Hev.
    rewrite elem_of_app, elem_of_cons, elem_of_nil.
    intros [Hin|[?|[]]]; [|done].
    by apply not_elem_of_pipes in Hin.
  - split; [done|]. split; [done|]. intros cmd. rewrite Hev.
    rewrite elem_of_app, elem_of_cons, elem_of_nil.
    intros [Hin|[?|[]]]; [|done].
    by apply not_elem_of_pipes in Hin.
  - split; [done|]. split; [done|]. intros cmd'. rewrite Hev.
    rewrite elem_of_app, !elem_of_cons, elem_of_nil.
    intros [Hin|[?|[?|[]]]]; [|done..].
    by apply not_elem_of_pipes in Hin.
  - split; [done|]. exists g. split; [done|]. rewrite Hev.
    rewrite elem_of_app, !elem_of_cons. tauto.
Qed.

(** X3.  The effects of [Handle] come in a fixed order and each at most
    once: up to four pipes, then, only when all four exist, the lookup,
    then the start, then the [go] statement.  After an [os.Pipe] that
    failed nothing more is attempted, and [Handle] never writes, closes
    or waits. *)
Theorem Handle_order_of_effects d σ :
  let σ1 := exec (Handle os cd d) σ in
  exists k tail,
    since σ σ1 = (EPipe <$> fresh_pipes k (next_fd σ)) ++ tail /\
    ((k = 0 /\ tail = [])
     \/ (k < 4 /\ exists e, tail = [EPipeFailed e])
     \/ (k = 4 /\ exists name,
           tail = [ELookup name]
           \/ (exists cmd e, tail = [ELookup name; EStart cmd (Some e)])
           \/ (exists g, tail = [ELookup name; EStart (go_cmd g) None;
                                 EGo g]))).
Proof.
  cbn zeta. unfold exec.
  destruct (Handle_cases d σ)
    as [(e & _ & ->)|[(e & k & σ1 & Hk & -> & Hg & Hev)
       |[(msg & name & σ1 & -> & Hg & Hev)
       |[(e & name & cmd & σ1 & -> & Hg & Hev)
        |(name & g & σ1 & -> & Hg & Hev)]]]];
    cbn [snd].
  - exists 0, []. split; [|by left].
    unfold since. by rewrite drop_all.
  - exists k, [EPipeFailed e]. split; [done|]. right. left. eauto.
  - exists 4, [ELookup name]. split; [done|]. right. right. eauto.
  - eexists 4, _. split; [exact Hev|]. right. right.
    split; [done|]. exists name. right. left. eauto.
  - eexists 4, _. split; [exact Hev|]. right. right.
    split; [done|]. exists name. right. right. eauto.
Qed.

(** A successful [Handle], in full. *)
Lemma Handle_success_full d σ fds σ1 :
  Handle os cd d σ = ((fds, None), σ1) ->
  exists spec u,
    let ps := fresh_pipes 4 (next_fd σ) in
    let σp := with_pipes ps σ in
    let cmd := command_of os (at_Command spec σ) spec u ps in
    Decode d = inr spec /\
    Lookup (Users cd) (User spec) σp = (Some u, None) /\
    fds = client_ends ps /\
    σ1 = exec (spawn (completion_of cmd ps))
           (push (EStart cmd None) (push (ELookup (User spec)) σp)).
Proof.
  intros H. destruct (Decode d) as [e|spec] eqn:Ed.
  { rewrite (decode_failure_path _ _ _ _ _ Ed) in H. discriminate. }
  destruct (create_pipes os 4 0 (replicate 4 inhabitant) σ)
    as [[e|pipes] σp] eqn:Ecp.
  { destruct (pipe_failure_path os cd d spec σ e σp Ed Ecp) as (Hh & _).
    rewrite Hh in H. discriminate. }
  destruct (Lookup (Users cd) (User spec) σp) as [found ferr] eqn:El.
  assert (fst (Lookup (Users cd) (User spec) σp) = None
          \/ snd (Lookup (Users cd) (User spec) σp) <> None
          \/ exists u, Lookup (Users cd) (User spec) σp = (Some u, None))
    as [Hf|[Hf|[u Hu]]].
  { rewrite El. destruct found, ferr; cbn; eauto. }
  1,2: destruct (lookup_failure_path os cd d spec σ pipes σp Ed Ecp)
         as (e & Hh & _); [tauto|]; rewrite Hh in H; discriminate.
  pose proof Ecp as Ecp'. apply create_pipes_inr in Ecp' as [-> ->].
  rewrite fill_fresh in *.
  destruct (Runner_Start (cd_Runner cd)
              (command_of os (at_Command spec σ) spec u
                 (fresh_pipes 4 (next_fd σ)))
              (push (ELookup (User spec))
                 (with_pipes (fresh_pipes 4 (next_fd σ)) σ))) as [e|] eqn:Es.
  - destruct (start_failure_path os cd d spec u σ _ _ e Ed Ecp Hu Es)
      as (Hh & _).
    rewrite Hh in H. discriminate.
  - destruct (success_path os cd d spec u σ _ _ Ed Ecp Hu Es) as (Hh & _).
    rewrite Hh in H. inversion H; subst. exists spec, u. by cbn zeta.
Qed.

(** X4.  The command [Handle] starts is the one asked for.  Its
    arguments are the path of the request followed by the arguments of
    the request.  Its path is the path of the request, unless that path
    is a bare name, one equal to its own [filepath.Base]: then
    [exec.Command] has looked the name up, and the path is the file
    found or, if none was found, still the name, with the error kept in
    the command.  Its uid and gid are the numbers [Sscanf] stored for
    the [Uid] and [Gid] of the record the resolver returned for the user
    of the request, or 0 where [Sscanf] stored nothing. *)
Theorem Handle_starts_requested_command d σ fds σ1 :
  Handle os cd d σ = ((fds, None), σ1) ->
  exists spec u cmd,
    Decode d = inr spec /\
    Lookup (Users cd) (User spec)
      (with_pipes (fresh_pipes 4 (next_fd σ)) σ) = (Some u, None) /\
    List.filter is_start (since σ σ1) = [EStart cmd None] /\
    cmd_Args cmd = Path spec :: Args spec /\
    (filepath_Base (Path spec) <> Path spec ->
     cmd_Path cmd = Path spec /\ lookPathErr cmd = None) /\
    (filepath_Base (Path spec) = Path spec ->
     match LookPath os (Path spec) (at_Command spec σ) with
     | inr file => cmd_Path cmd = file /\ lookPathErr cmd = None
     | inl err => cmd_Path cmd = Path spec /\ lookPathErr cmd = Some err
     end) /\
    Credential_Uid cmd = default 0%N (Sscanf_uint32 os (Uid u)) /\
    Credential_Gid cmd = default 0%N (Sscanf_uint32 os (Gid u)).
Proof.
  intros H. apply Handle_success_full in H as (spec & u & H).
  cbn zeta in H. destruct H as (Ed & El & -> & ->).
  exists spec, u. eexists. split; [exact Ed|]. split; [exact El|].
  split.
  { erewrite since_app.
    2:{ unfold exec, spawn. cbn [snd push with_pipes log].
        rewrite <- !app_assoc. reflexivity. }
    reflexivity. }
  unfold command_of, exec_Command. cbn zeta.
  destruct (String.eqb_spec (filepath_Base (Path spec)) (Path spec))
    as [Hb|Hb].
  - destruct (LookPath os (Path spec) (at_Command spec σ)) as [err|file];
      cbn [cmd_Path cmd_Args lookPathErr Credential_Uid Credential_Gid];
      repeat split; try done.
  - cbn [cmd_Path cmd_Args lookPathErr Credential_Uid Credential_Gid].
    repeat split; try done.
Qed.

(** A name without a slash is looked up by [exec.Command]; a path with
    a directory in front of the name is not. *)
Example filepath_Base_cases :
  filepath_Base "echo" = "echo" /\
  filepath_Base "/bin/echo" = "echo" /\
  filepath_Base "bin/echo/" = "echo" /\
  filepath_Base "" = "." /\
  filepath_Base "/" = "/" /\
  filepath_Base "//" = "/".
Proof. repeat split. Qed.

(** The goroutine started by [Handle] writes to and closes only
    descriptors the daemon kept. *)
Lemma completion_touches τ spec u n σ f :
  let ps := fresh_pipes 4 n in
  let g := completion_of (command_of os τ spec u ps) ps in
  f ∉ server_ends ps ->
  List.filter (on_file f) (since σ (exec (run' g) σ)) = [] /\
  (f ∈ open σ -> f ∈ open (exec (run' g) σ)).
Proof.
  intros ps g Hf.
  destruct (completion_run os UnknownExitStatus cd τ spec u n σ)
    as (werr & d1 & d2 & Ho & Hev & _).
  cbn zeta in Ho, Hev. fold ps g in Ho, Hev. rewrite Ho, Hev.
  assert (f <> go_errWriter g /\ f <> go_exitWriter g) as [He Hx].
  { unfold server_ends in Hf. simpl in Hf.
    rewrite !not_elem_of_cons in Hf. cbn. lia. }
  split.
  - cbn [List.filter on_file].
    rewrite List.filter_app, on_file_diagnostic by done.
    cbn [List.filter on_file app].
    rewrite (proj2 (Nat.eqb_neq (go_exitWriter g) f)) by congruence.
    rewrite List.filter_app, on_file_diagnostic by done.
    by rewrite on_file_close_events_notin.
  - intros Hin. apply elem_of_closed. by split.
Qed.

(** X5.  The daemon leaves the four descriptors it returned to the caller:
    neither [Handle] nor the goroutine it started writes to one of them
    or closes it, so one that is open stays open. *)
Theorem client_ends_left_to_caller d σ fds σ1 :
  Handle os cd d σ = ((fds, None), σ1) ->
  exists g,
    goroutines σ1 = goroutines σ ++ [g] /\
    forall f, f ∈ fds ->
      List.filter (on_file f) (since σ σ1) = [] /\
      forall σ2,
        List.filter (on_file f) (since σ2 (exec (run' g) σ2)) = [] /\
        (f ∈ open σ2 -> f ∈ open (exec (run' g) σ2)).
Proof.
  intros H. apply Handle_success_inv in H as (spec & u & H).
  cbn zeta in H. destruct H as (_ & -> & _ & Hg & Hl).
  eexists. split; [exact Hg|]. intros f Hf. split.
  - by rewrite (since_app _ _ _ Hl).
  - intros σ2. apply completion_touches.
    unfold client_ends in Hf. unfold server_ends. simpl in Hf |- *.
    rewrite !elem_of_cons, elem_of_nil in Hf. notin_lia.
Qed.

(** X6.  Two requests handled back to back, the second in the very
    world the first returned, so before the goroutine of the first has
    run and closed anything, get separate pipes: no descriptor of the
    second is a descriptor of the first, and the goroutine of either
    request never writes to or closes a pipe end of the other. *)
Theorem Handle_twice_separate d1 d2 σ fds1 σ1 fds2 σ2 :
  Handle os cd d1 σ = ((fds1, None), σ1) ->
  Handle os cd d2 σ1 = ((fds2, None), σ2) ->
  exists g1 g2,
    goroutines σ2 = goroutines σ ++ [g1; g2] /\
    (forall f, f ∈ fds1 -> f ∉ fds2) /\
    forall f1 f2,
      f1 ∈ pipe_ends (go_pipes g1) ->
      f2 ∈ pipe_ends (go_pipes g2) ->
      f1 <> f2 /\
      forall τ,
        List.filter (on_file f2) (since τ (exec (run' g1) τ)) = [] /\
        List.filter (on_file f1) (since τ (exec (run' g2) τ)) = [].
Proof.
  intros H1 H2.
  apply Handle_success_full in H1 as (spec1 & u1 & H1).
  cbn zeta in H1. destruct H1 as (_ & _ & -> & ->).
  apply Handle_success_full in H2 as (spec2 & u2 & H2).
  cbn zeta in H2. destruct H2 as (_ & _ & -> & ->).
  unfold exec, spawn. cbn [snd goroutines next_fd push with_pipes length].
  set (n := next_fd σ).
  eexists _, _. split; [by rewrite <- app_assoc|]. split.
  - intros f. unfold client_ends. simpl.
    rewrite !elem_of_cons, elem_of_nil. intros Hf. notin_lia.
  - intros f1 f2. cbn [go_pipes completion_of].
    unfold pipe_ends. simpl.
    rewrite !elem_of_cons, !elem_of_nil. intros Hf1 Hf2.
    split; [lia|]. intros τ. split.
    + apply completion_touches. unfold server_ends. simpl. notin_lia.
    + apply (completion_touches _ spec2 u2
               (S (S (S (S (S (S (S (S n)))))))) τ).
      unfold server_ends. simpl. notin_lia.
Qed.

(** X7.  [reportExitStatus] runs the deferred [tidyUp], whatever closure it
    is, exactly once and as its last step on every path.  Before that it
    only waits and writes: the open descriptors and the pending
    goroutines are as it found them when [tidyUp] starts. *)
Theorem reportExitStatus_defers_tidyUp ru cmd exitW errW (t : M unit) σ :
  let res := Runner_Wait ru cmd σ in
  exists werr d1 d2 σ',
    reportExitStatus os UnknownExitStatus ru cmd exitW errW t σ = t σ' /\
    open σ' = open σ /\
    next_fd σ' = next_fd σ /\
    goroutines σ' = goroutines σ /\
    log σ' = log σ ++ EWait cmd
               :: diagnostic errW "container_daemon: Wait failed: " (snd res)
                    d1
               ++ EWrite exitW [reported UnknownExitStatus res] werr
               :: diagnostic errW
                    "container_daemon: failed to Write exit status: " werr d2.
Proof.
  cbn zeta. unfold reportExitStatus, reported.
  unfold bind at 1, call_Wait.
  destruct (Runner_Wait ru cmd σ) as [st [e|]]; cbn [fst snd].
  - unfold bind at 1. unfold bind at 1.
    destruct (tryToReportErrorf_run os errW "container_daemon: Wait failed: "
                e (push (EWait cmd) σ)) as (d1 & ->).
    unfold ret at 1. unfold bind at 1.
    match goal with |- context [File_Write os exitW ?dt ?s] =>
      destruct (File_Write_run os exitW dt s) as (werr & -> & _) end.
    exists werr, d1. destruct werr as [e2|]; unfold bind at 1.
    + match goal with |- context [tryToReportErrorf os errW ?ft [e2] ?s] =>
        destruct (tryToReportErrorf_run os errW ft e2 s) as (d2 & ->) end.
      exists d2. eexists. split; [reflexivity|].
      cbn [open next_fd goroutines log push diagnostic].
      by rewrite <- !app_assoc.
    + unfold ret at 1. exists None. eexists. split; [reflexivity|].
      cbn [open next_fd goroutines log push diagnostic].
      by rewrite <- !app_assoc.
  - unfold bind at 1. unfold ret at 1. unfold bind at 1.
    match goal with |- context [File_Write os exitW ?dt ?s] =>
      destruct (File_Write_run os exitW dt s) as (werr & -> & _) end.
    exists werr, None. destruct werr as [e2|]; unfold bind at 1.
    + match goal with |- context [tryToReportErrorf os errW ?ft [e2] ?s] =>
        destruct (tryToReportErrorf_run os errW ft e2 s) as (d2 & ->) end.
      exists d2. eexists. split; [reflexivity|].
      cbn [open next_fd goroutines log push diagnostic].
      by rewrite <- !app_assoc.
    + unfold ret at 1. exists None. eexists. split; [reflexivity|].
      cbn [open next_fd goroutines log push diagnostic].
      by rewrite <- !app_assoc.
Qed.

(** X8.  [tidyUp] on any array of pipes closes the read end of the first
    pipe, then the write ends of the second, third and fourth; a close
    that fails does not stop the others.  Afterwards exactly these four
    are gone from the open descriptors.  Run once more, it attempts the
    same four closes, each returns [ErrClosed], and nothing changes. *)
Theorem tidyUp_closes_all_four pipes σ :
  let fs := server_ends pipes in
  let σ1 := exec (tidyUp pipes) σ in
  let σ2 := exec (tidyUp pipes) σ1 in
  since σ σ1 = close_events fs (open σ) /\
  (forall f, f ∈ open σ1 <-> f ∈ open σ /\ f ∉ fs) /\
  since σ1 σ2 = (fun f => EClose f (Some ErrClosed)) <$> fs /\
  open σ2 = open σ1.
Proof.
  assert (forall τ, tidyUp pipes τ
            = (tt, mkWorld (closed (server_ends pipes) (open τ)) (next_fd τ)
                     (goroutines τ)
                     (log τ ++ close_events (server_ends pipes) (open τ))))
    as Hrun.
  { intros τ. unfold tidyUp, for_range, bind, ret, File_Close, server_ends.
    cbn [open next_fd goroutines log close_events closed foldl].
    by rewrite <- !app_assoc. }
  cbn zeta. unfold exec. rewrite !Hrun. cbn [snd open log].
  destruct (close_events_all_closed (server_ends pipes)
              (closed (server_ends pipes) (open σ))) as [Hev Hcl].
  { intros f Hf. rewrite elem_of_closed. tauto. }
  split; [by apply since_app|].
  split; [intros f; apply elem_of_closed|].
  split; [|exact Hcl].
  apply since_app. cbn [log]. by rewrite Hev.
Qed.

(** X9.  An error of the resolver wins over a record: when [Lookup] returns
    an error, [Handle] fails with that error, names the user, and never
    calls [Start], even if [Lookup] returned a record as well. *)
Theorem Handle_lookup_error_wins d spec pipes σ σp found err :
  Decode d = inr spec ->
  create_pipes os 4 0 (replicate 4 inhabitant) σ = (inr pipes, σp) ->
  Lookup (Users cd) (User spec) σp = (found, Some err) ->
  Handle os cd d σ
  = (([], Some ("container_daemon: lookup user " +:+ User spec +:+ ": "
                +:+ err)),
     push (ELookup (User spec)) σp) /\
  existsb is_start (since σ (push (ELookup (User spec)) σp)) = false.
Proof.
  intros Ed Ecp El.
  destruct (lookup_failure_path os cd d spec σ pipes σp Ed Ecp)
    as (e & Hh & _ & He & _ & _ & Hev).
  { rewrite El. by right. }
  rewrite El in He. rewrite (He err eq_refl) in Hh. split; [exact Hh|].
  rewrite Hev. reflexivity.
Qed.

(** The run of the goroutine when [Wait] succeeds and the exit-status
    writer is still open. *)
Lemma completion_run_wait_ok τ spec u n σ code :
  let ps := fresh_pipes 4 n in
  let cmd := command_of os τ spec u ps in
  let g := completion_of cmd ps in
  Runner_Wait (cd_Runner cd) cmd σ = (code, None) ->
  go_exitWriter g ∈ open σ ->
  let werr := Write_err os (go_exitWriter g) [code] (push (EWait cmd) σ) in
  exists d2,
    since σ (exec (run' g) σ)
    = EWait cmd :: EWrite (go_exitWriter g) [code] werr
      :: diagnostic (go_errWriter g)
           "container_daemon: failed to Write exit status: " werr d2
      ++ close_events (server_ends ps) (open σ).
Proof.
  intros ps cmd g Hwait Hopen werr.
  unfold run_goroutine, exec, reportExitStatus.
  change (go_cmd g) with cmd.
  change (go_pipes g)
    with [mkPipe n (S n); mkPipe (2 + n) (3 + n);
          mkPipe (4 + n) (5 + n); mkPipe (6 + n) (7 + n)].
  unfold bind at 1, call_Wait. rewrite Hwait. cbn [fst snd].
  unfold bind at 1. unfold ret at 1. unfold bind at 1.
  rewrite File_Write_open by exact Hopen. fold werr.
  destruct werr as [e2|]; unfold bind at 1.
  - match goal with |- context [tryToReportErrorf os ?f ?ft [e2] ?s] =>
      destruct (tryToReportErrorf_run os f ft e2 s) as (d2 & ->) end.
    exists d2. rewrite tidyUp_run. apply since_app.
    cbn [snd log push diagnostic open]. by rewrite <- !app_assoc.
  - unfold ret at 1. exists None. rewrite tidyUp_run. apply since_app.
    cbn [snd log push diagnostic open app]. by rewrite <- !app_assoc.
Qed.

(** X10.  When [Wait] succeeds and the system accepts the status byte, the
    goroutine started by [Handle] does nothing but wait, write that one
    byte and close the four descriptors the daemon kept: it writes
    nothing to the stderr pipe of the command. *)
Theorem clean_exit_is_silent d σ fds σ1 g σ2 code :
  Handle os cd d σ = ((fds, None), σ1) ->
  goroutines σ1 = goroutines σ ++ [g] ->
  Runner_Wait (cd_Runner cd) (go_cmd g) σ2 = (code, None) ->
  go_exitWriter g ∈ open σ2 ->
  Write_err os (go_exitWriter g) [code] (push (EWait (go_cmd g)) σ2) = None ->
  let σ3 := exec (run' g) σ2 in
  since σ2 σ3
    = EWait (go_cmd g) :: EWrite (go_exitWriter g) [code] None
      :: close_events (server_ends (go_pipes g)) (open σ2) /\
  written (go_exitWriter g) (since σ2 σ3) = [code] /\
  written (go_errWriter g) (since σ2 σ3) = [].
Proof.
  intros H Hg Hwait Hopen Hw.
  apply Handle_success_inv in H as (spec & u & H).
  cbn zeta in H. destruct H as (_ & _ & _ & Hg' & _).
  rewrite Hg in Hg'. apply app_inj_tail in Hg' as [_ ->].
  destruct (completion_run_wait_ok (at_Command spec σ) spec u (next_fd σ)
              σ2 code Hwait Hopen)
    as (d2 & Hev).
  cbn zeta in Hev. cbn [go_cmd go_exitWriter completion_of] in Hw, Hev.
  rewrite Hw in Hev. cbn [diagnostic app] in Hev.
  cbn zeta. rewrite Hev. split; [reflexivity|].
  change (go_exitWriter _) with (7 + next_fd σ).
  change (go_errWriter _) with (5 + next_fd σ).
  rewrite !written_cons, !written_close_events.
  cbn [fresh_pipes lookup_total list_lookup_total w]. eqb_lia. by split.
Qed.

(** X11.  When [Wait] succeeds but the write of the status byte fails with
    [e], the goroutine started by [Handle] then writes the diagnostic
    ["container_daemon: failed to Write exit status: [e]"] to the write
    end of the stderr pipe and goes on to close the four descriptors the
    daemon kept; the exit-status pipe stays empty. *)
Theorem exit_write_failure_reported d σ fds σ1 g σ2 code e :
  Handle os cd d σ = ((fds, None), σ1) ->
  goroutines σ1 = goroutines σ ++ [g] ->
  Runner_Wait (cd_Runner cd) (go_cmd g) σ2 = (code, None) ->
  go_exitWriter g ∈ open σ2 ->
  Write_err os (go_exitWriter g) [code] (push (EWait (go_cmd g)) σ2)
    = Some e ->
  let σ3 := exec (run' g) σ2 in
  exists d2,
    since σ2 σ3
      = EWait (go_cmd g) :: EWrite (go_exitWriter g) [code] (Some e)
        :: EWrite (go_errWriter g)
             (String.list_byte_of_string
                ("container_daemon: failed to Write exit status: ["
                 +:+ e +:+ "]")) d2
        :: close_events (server_ends (go_pipes g)) (open σ2) /\
    Stderr (go_cmd g) = Some (go_errWriter g) /\
    written (go_exitWriter g) (since σ2 σ3) = [].
Proof.
  intros H Hg Hwait Hopen Hw.
  apply Handle_success_inv in H as (spec & u & H).
  cbn zeta in H. destruct H as (_ & _ & _ & Hg' & _).
  rewrite Hg in Hg'. apply app_inj_tail in Hg' as [_ ->].
  destruct (completion_run_wait_ok (at_Command spec σ) spec u (next_fd σ)
              σ2 code Hwait Hopen)
    as (d2 & Hev).
  cbn zeta in Hev. cbn [go_cmd go_exitWriter completion_of] in Hw, Hev.
  rewrite Hw in Hev. cbn [diagnostic app] in Hev.
  cbn zeta. exists d2. rewrite Hev.
  split; [reflexivity|]. split; [reflexivity|].
  change (go_exitWriter _) with (7 + next_fd σ).
  change (go_errWriter _) with (5 + next_fd σ).
  rewrite !written_cons, written_close_events.
  cbn [fresh_pipes lookup_total list_lookup_total w].
  destruct d2; eqb_lia; reflexivity.
Qed.

End More.

(** ** Runs of the further properties *)

Section MoreRuns.

Import Sample.

(** A request that names the command [echo] without a directory. *)
Lemma Handle_starts_requested_command_witness :
  let cd := daemon (runner_ok x00) in
  let d := mkDecoder (inr (mkSpec "echo" ["hi"] "nobody")) in
  let σ1 := exec (Handle os_ok cd d) world0 in
  Handle os_ok cd d world0 = (([4; 5; 7; 9], None), σ1) /\
  exists spec u cmd,
    Decode d = inr spec /\
    Lookup (Users cd) (User spec)
      (with_pipes (fresh_pipes 4 (next_fd world0)) world0) = (Some u, None) /\
    List.filter is_start (since world0 σ1) = [EStart cmd None] /\
    cmd_Args cmd = Path spec :: Args spec /\
    (filepath_Base (Path spec) <> Path spec ->
     cmd_Path cmd = Path spec /\ lookPathErr cmd = None) /\
    (filepath_Base (Path spec) = Path spec ->
     match LookPath os_ok (Path spec) (at_Command spec world0) with
     | inr file => cmd_Path cmd = file /\ lookPathErr cmd = None
     | inl err => cmd_Path cmd = Path spec /\ lookPathErr cmd = Some err
     end) /\
    Credential_Uid cmd = default 0%N (Sscanf_uint32 os_ok (Uid u)) /\
    Credential_Gid cmd = default 0%N (Sscanf_uint32 os_ok (Gid u)).
Proof.
  assert (Handle os_ok (daemon (runner_ok x00))
            (mkDecoder (inr (mkSpec "echo" ["hi"] "nobody"))) world0
          = (([4; 5; 7; 9], None),
             exec (Handle os_ok (daemon (runner_ok x00))
                     (mkDecoder (inr (mkSpec "echo" ["hi"] "nobody"))))
               world0))
    as H by (vm_compute; reflexivity).
  split; [exact H|].
  exact (Handle_starts_requested_command os_ok _ _ _ _ _ H).
Defined.

(** In that run the command started is [/bin/echo], with the name as it
    was given in front of the arguments. *)
Example bare_name_is_looked_up :
  let d := mkDecoder (inr (mkSpec "echo" ["hi"] "nobody")) in
  List.filter is_start
    (log (exec (Handle os_ok (daemon (runner_ok x00)) d) world0))
  = [EStart (mkCmd "/bin/echo" ["echo"; "hi"] None 65534 65534
                   (Some 3) (Some 6) (Some 8)) None].
Proof. vm_compute. reflexivity. Qed.

Lemma client_ends_left_to_caller_witness :
  let cd := daemon runner_lost in
  let σ1 := exec (Handle os_epipe cd (echo "nobody")) world0 in
  Handle os_epipe cd (echo "nobody") world0 = (([4; 5; 7; 9], None), σ1) /\
  exists g,
    goroutines σ1 = goroutines world0 ++ [g] /\
    forall f, f ∈ [4; 5; 7; 9] ->
      List.filter (on_file f) (since world0 σ1) = [] /\
      forall σ2,
        List.filter (on_file f)
          (since σ2 (exec (run_goroutine os_epipe Unknown cd g) σ2)) = [] /\
        (f ∈ open σ2 ->
         f ∈ open (exec (run_goroutine os_epipe Unknown cd g) σ2)).
Proof.
  assert (Handle os_epipe (daemon runner_lost) (echo "nobody") world0
          = (([4; 5; 7; 9], None),
             exec (Handle os_epipe (daemon runner_lost) (echo "nobody"))
               world0))
    as H by (vm_compute; reflexivity).
  split; [exact H|].
  exact (client_ends_left_to_caller os_epipe Unknown _ _ _ _ _ H).
Defined.

(** Two requests in a row, for [nobody] and for [odd]. *)
Lemma Handle_twice_separate_witness :
  let cd := daemon (runner_ok x00) in
  let σ1 := exec (Handle os_ok cd (echo "nobody")) world0 in
  let σ2 := exec (Handle os_ok cd (echo "odd")) σ1 in
  (Handle os_ok cd (echo "nobody") world0 = (([4; 5; 7; 9], None), σ1) /\
   Handle os_ok cd (echo "odd") σ1 = (([12; 13; 15; 17], None), σ2)) /\
  exists g1 g2,
    goroutines σ2 = goroutines world0 ++ [g1; g2] /\
    (forall f, f ∈ [4; 5; 7; 9] -> f ∉ [12; 13; 15; 17]) /\
    forall f1 f2,
      f1 ∈ pipe_ends (go_pipes g1) ->
      f2 ∈ pipe_ends (go_pipes g2) ->
      f1 <> f2 /\
      forall τ,
        List.filter (on_file f2)
          (since τ (exec (run_goroutine os_ok Unknown cd g1) τ)) = [] /\
        List.filter (on_file f1)
          (since τ (exec (run_goroutine os_ok Unknown cd g2) τ)) = [].
Proof.
  assert (Handle os_ok (daemon (runner_ok x00)) (echo "nobody") world0
          = (([4; 5; 7; 9], None),
             exec (Handle os_ok (daemon (runner_ok x00)) (echo "nobody"))
               world0))
    as H1 by (vm_compute; reflexivity).
  assert (Handle os_ok (daemon (runner_ok x00)) (echo "odd")
            (exec (Handle os_ok (daemon (runner_ok x00)) (echo "nobody"))
               world0)
          = (([12; 13; 15; 17], None),
             exec (Handle os_ok (daemon (runner_ok x00)) (echo "odd"))
               (exec (Handle os_ok (daemon (runner_ok x00)) (echo "nobody"))
                  world0)))
    as H2 by (vm_compute; reflexivity).
  split; [by split|].
  exact (Handle_twice_separate os_ok Unknown _ _ _ _ _ _ _ _ H1 H2).
Defined.

(** A resolver that returns a stale record together with an error. *)
Lemma Handle_lookup_error_wins_witness :
  let users := mkUsers (fun _ _ => (Some (mkUser "0" "0"),
                                    Some "store unavailable")) in
  let cd := mkDaemon listener_ok users (runner_ok x00) in
  let spec := mkSpec "/bin/echo" ["hi"] "nobody" in
  let pipes := fresh_pipes 4 3 in
  let σp := with_pipes pipes world0 in
  (Decode (echo "nobody") = inr spec /\
   create_pipes os_ok 4 0 (replicate 4 inhabitant) world0 = (inr pipes, σp) /\
   Lookup (Users cd) (User spec) σp
   = (Some (mkUser "0" "0"), Some "store unavailable")) /\
  Handle os_ok cd (echo "nobody") world0
  = (([], Some ("container_daemon: lookup user " +:+ User spec +:+ ": "
                +:+ "store unavailable")),
     push (ELookup (User spec)) σp) /\
  existsb is_start (since world0 (push (ELookup (User spec)) σp)) = false.
Proof.
  assert (create_pipes os_ok 4 0 (replicate 4 inhabitant) world0
          = (inr (fresh_pipes 4 3), with_pipes (fresh_pipes 4 3) world0))
    as Hp by (vm_compute; reflexivity).
  split; [split; [reflexivity|split; [exact Hp|reflexivity]]|].
  exact (Handle_lookup_error_wins os_ok
           (mkDaemon listener_ok
              (mkUsers (fun _ _ => (Some (mkUser "0" "0"),
                                    Some "store unavailable")))
              (runner_ok x00))
           (echo "nobody") (mkSpec "/bin/echo" ["hi"] "nobody")
           (fresh_pipes 4 3) world0 (with_pipes (fresh_pipes 4 3) world0)
           (Some (mkUser "0" "0")) "store unavailable" eq_refl Hp eq_refl).
Defined.

Lemma clean_exit_is_silent_witness :
  let cd := daemon (runner_ok x2a) in
  let σ1 := exec (Handle os_ok cd (echo "nobody")) world0 in
  let g := completion_of
             (command_of os_ok world0 (mkSpec "/bin/echo" ["hi"] "nobody")
                (mkUser "65534" "65534") (fresh_pipes 4 3))
             (fresh_pipes 4 3) in
  let σ3 := exec (run_goroutine os_ok Unknown cd g) σ1 in
  (Handle os_ok cd (echo "nobody") world0 = (([4; 5; 7; 9], None), σ1) /\
   goroutines σ1 = goroutines world0 ++ [g] /\
   Runner_Wait (cd_Runner cd) (go_cmd g) σ1 = (x2a, None) /\
   go_exitWriter g ∈ open σ1 /\
   Write_err os_ok (go_exitWriter g) [x2a] (push (EWait (go_cmd g)) σ1)
   = None) /\
  since σ1 σ3
    = EWait (go_cmd g) :: EWrite (go_exitWriter g) [x2a] None
      :: close_events (server_ends (go_pipes g)) (open σ1) /\
  written (go_exitWriter g) (since σ1 σ3) = [x2a] /\
  written (go_errWriter g) (since σ1 σ3) = [].
Proof.
  assert (Handle os_ok (daemon (runner_ok x2a)) (echo "nobody") world0
          = (([4; 5; 7; 9], None),
             exec (Handle os_ok (daemon (runner_ok x2a)) (echo "nobody"))
               world0))
    as H by (vm_compute; reflexivity).
  assert (10 ∈ open (exec (Handle os_ok (daemon (runner_ok x2a))
                             (echo "nobody")) world0))
    as Ho by (apply (bool_decide_unpack _); vm_compute; exact I).
  split; [split; [exact H|split; [reflexivity|split; [reflexivity|
          split; [exact Ho|reflexivity]]]]|].
  exact (clean_exit_is_silent os_ok Unknown (daemon (runner_ok x2a))
           (echo "nobody") world0 [4; 5; 7; 9] _ _ _ x2a
           H eq_refl eq_refl Ho eq_refl).
Defined.

(** Nobody reads the exit-status pipe any more. *)
Lemma exit_write_failure_reported_witness :
  let cd := daemon (runner_ok x2a) in
  let σ1 := exec (Handle os_epipe cd (echo "nobody")) world0 in
  let g := completion_of
             (command_of os_epipe world0 (mkSpec "/bin/echo" ["hi"] "nobody")
                (mkUser "65534" "65534") (fresh_pipes 4 3))
             (fresh_pipes 4 3) in
  let σ3 := exec (run_goroutine os_epipe Unknown cd g) σ1 in
  (Handle os_epipe cd (echo "nobody") world0 = (([4; 5; 7; 9], None), σ1) /\
   goroutines σ1 = goroutines world0 ++ [g] /\
   Runner_Wait (cd_Runner cd) (go_cmd g) σ1 = (x2a, None) /\
   go_exitWriter g ∈ open σ1 /\
   Write_err os_epipe (go_exitWriter g) [x2a] (push (EWait (go_cmd g)) σ1)
   = Some "broken pipe") /\
  exists d2,
    since σ1 σ3
      = EWait (go_cmd g) :: EWrite (go_exitWriter g) [x2a] (Some "broken pipe")
        :: EWrite (go_errWriter g)
             (String.list_byte_of_string
                ("container_daemon: failed to Write exit status: ["
                 +:+ "broken pipe" +:+ "]")) d2
        :: close_events (server_ends (go_pipes g)) (open σ1) /\
    Stderr (go_cmd g) = Some (go_errWriter g) /\
    written (go_exitWriter g) (since σ1 σ3) = [].
Proof.
  assert (Handle os_epipe (daemon (runner_ok x2a)) (echo "nobody") world0
          = (([4; 5; 7; 9], None),
             exec (Handle os_epipe (daemon (runner_ok x2a)) (echo "nobody"))
               world0))
    as H by (vm_compute; reflexivity).
  assert (10 ∈ open (exec (Handle os_epipe (daemon (runner_ok x2a))
                             (echo "nobody")) world0))
    as Ho by (apply (bool_decide_unpack _); vm_compute; exact I).
  split; [split; [exact H|split; [reflexivity|split; [reflexivity|
          split; [exact Ho|reflexivity]]]]|].
  exact (exit_write_failure_reported os_epipe Unknown (daemon (runner_ok x2a))
           (echo "nobody") world0 [4; 5; 7; 9] _ _ _ x2a "broken pipe"
           H eq_refl eq_refl Ho eq_refl).
Defined.

End MoreRuns.
